(** * story_mcp_server: the request/response normalisation of [server.py]

    A shallow embedding of [_api_post] and of the three MCP tools
    [generate_story], [generate_episodic_beats_from_file] and [ask_vector_db],
    together with the part of Python's [json] module and of httpx they call.

    Conventions.
    - A Python [str] is modelled by the byte string of its UTF-8 encoding.
      With [ensure_ascii=False] the encoder only rewrites characters below
      0x80, so it acts on that encoding byte by byte.
    - A Python [int] is a [Z]; writing it in decimal is taken to succeed, as
      it does for every integer [json.loads] can produce (reading and writing
      share one limit on the number of digits).
    - A Python [float] is not-a-number, an infinity, or a finite float given
      by the numeral [float.__repr__] prints for it; no arithmetic is done on
      floats.  The timeouts, which the source writes [600.0], are whole
      seconds.
    - A Python [dict] is the ordered list of its items.
    - A computation threads the requests sent and the records logged, and
      ends by returning a value or by raising an exception.  The exceptions
      are the instances of [Exception]; what the upstream does with a request
      is a parameter of every run.
    - Creating and closing the [httpx.AsyncClient] of a call is taken to
      succeed.  The code run at import time (logging configuration, the
      start-up banner, [mcp.run]) is not part of a tool call and is left out. *)

From Stdlib Require Import String Ascii List ZArith NArith Lia Bool.
From Stdlib Require Import Decimal DecimalString DecimalFacts DecimalPos DecimalN DecimalZ.
Import ListNotations.

#[local] Open Scope list_scope.
#[local] Open Scope string_scope.

(** ** Characters *)

Module Chars.

Definition dquote : ascii := "034"%char.
Definition backslash : ascii := "092"%char.
Definition LF : ascii := "010"%char.
Definition CR : ascii := "013"%char.
Definition TAB : ascii := "009"%char.
Definition BS : ascii := "008"%char.
Definition FF : ascii := "012"%char.
Definition space : ascii := " "%char.

Definition code (c : ascii) : N := N_of_ascii c.

(** One lowercase hexadecimal digit, as [format(n, 'x')] prints it. *)
Definition hex_digit (n : N) : ascii :=
  match n with
  | 0 => "0" | 1 => "1" | 2 => "2" | 3 => "3" | 4 => "4"
  | 5 => "5" | 6 => "6" | 7 => "7" | 8 => "8" | 9 => "9"
  | 10 => "a" | 11 => "b" | 12 => "c" | 13 => "d" | 14 => "e"
  | _ => "f"
  end%N%char.

(** ['{0:04x}'.format(n)] for [n < 0x10000]. *)
Definition hex4 (n : N) : string :=
  String (hex_digit (N.land (N.shiftr n 12) 15))
    (String (hex_digit (N.land (N.shiftr n 8) 15))
       (String (hex_digit (N.land (N.shiftr n 4) 15))
          (String (hex_digit (N.land n 15)) ""))).

(** The value of one hexadecimal digit, either case. *)
Definition hex_value (c : ascii) : option N :=
  let n := code c in
  if ((48 <=? n) && (n <=? 57))%N then Some (n - 48)%N
  else if ((97 <=? n) && (n <=? 102))%N then Some (n - 87)%N
  else if ((65 <=? n) && (n <=? 70))%N then Some (n - 55)%N
  else None.

Definition is_digit (c : ascii) : bool :=
  ((48 <=? code c) && (code c <=? 57))%N.

(** JSON white space: space, tab, line feed, carriage return. *)
Definition is_ws (c : ascii) : bool :=
  let n := code c in
  ((n =? 32) || (n =? 9) || (n =? 10) || (n =? 13))%N.

End Chars.
Import Chars.

(** ** Python strings and integers *)

(** [' ' * n] *)
Fixpoint spaces (n : nat) : string :=
  match n with
  | O => ""
  | S k => String space (spaces k)
  end.

(** [str(n)] / [int.__repr__] for a Python int, for the integers that can be
    written: a response body and a status code hold no other. *)
Definition py_str_int (n : Z) : string :=
  NilZero.string_of_int (Z.to_int n).

(** [len(s)] counts code points: every byte of the UTF-8 encoding that is not
    a continuation byte (0x80..0xBF) starts one. *)
Fixpoint py_len (s : string) : Z :=
  match s with
  | "" => 0
  | String c r =>
      (if ((128 <=? code c) && (code c <? 192))%N then 0 else 1) + py_len r
  end%Z.

(** ** Python floats *)

(** One or more decimal digits. *)
Definition digit_seq : Type := (digits * list digits)%type.

(** The exponent of a numeral: [e], a sign and digits. *)
Record exponent : Type := {
  exp_negative : bool;
  exp_digits : digit_seq
}.

(** What follows the integer digits of a float numeral: a fraction, with or
    without an exponent, or an exponent alone. *)
Inductive float_tail : Type :=
| Fraction (frac : digit_seq) (exp : option exponent)
| Exponent (exp : exponent).

(** The numeral of a finite float: [1.5], [-0.0], [100000.0], [1e+16],
    [1.5e-07].  The integer digits have no redundant leading zero. *)
Record float_literal : Type := {
  negative : bool;
  int_part : N;
  tail : float_tail
}.

(** A Python [float]: [float('nan')], [float('inf')], [float('-inf')], or a
    finite float, given by its [repr]. *)
Inductive pyfloat : Type :=
| PyNaN
| PyInf
| PyNegInf
| PyFinite (repr : float_literal).

Definition char_of_digit (d : digits) : ascii :=
  match d with
  | d0 => "0" | d1 => "1" | d2 => "2" | d3 => "3" | d4 => "4"
  | d5 => "5" | d6 => "6" | d7 => "7" | d8 => "8" | d9 => "9"
  end%char.

Fixpoint digits_text (ds : list digits) : string :=
  match ds with
  | [] => ""
  | d :: r => String (char_of_digit d) (digits_text r)
  end.

Definition exponent_text (e : exponent) : string :=
  "e" ++ (if exp_negative e then "-" else "+")
    ++ digits_text (fst (exp_digits e) :: snd (exp_digits e)).

(** [float.__repr__] of a finite float. *)
Definition float_repr (l : float_literal) : string :=
  (if negative l then "-" else "")
    ++ NilEmpty.string_of_uint (N.to_uint (int_part l))
    ++ match tail l with
       | Fraction f e =>
           "." ++ digits_text (fst f :: snd f)
             ++ match e with
                | Some e => exponent_text e
                | None => ""
                end
       | Exponent e => exponent_text e
       end.

(** [f == 0.0]: the float is a zero, [0.0] or [-0.0]; every digit of its
    numeral before the exponent is a zero. *)
Definition float_is_zero (f : pyfloat) : bool :=
  match f with
  | PyFinite l =>
      (int_part l =? 0)%N
      && match tail l with
         | Fraction f _ =>
             forallb (fun d => match d with d0 => true | _ => false end)
               (fst f :: snd f)
         | Exponent _ => true
         end
  | _ => false
  end.

(** ** JSON values *)

#[local] Set Warnings "-register-all".

(** What [r.json()] returns and [json.dumps] takes: [None], [bool], [int],
    [float], [str], [list] and [dict] with [str] keys. *)
Inductive json : Type :=
| JNull
| JBool (b : bool)
| JInt (n : Z)
| JFloat (f : pyfloat)
| JStr (s : string)
| JList (l : list json)
| JDict (d : list (string * json)).

(** Induction over [json] that reaches the elements of lists and dicts. *)
Section JsonInd.
Variable P : json -> Prop.
Hypothesis HNull : P JNull.
Hypothesis HBool : forall b, P (JBool b).
Hypothesis HInt : forall n, P (JInt n).
Hypothesis HFloat : forall f, P (JFloat f).
Hypothesis HStr : forall s, P (JStr s).
Hypothesis HList : forall l, Forall P l -> P (JList l).
Hypothesis HDict : forall d, Forall (fun kv => P (snd kv)) d -> P (JDict d).

Fixpoint json_ind_nested (v : json) : P v :=
  match v with
  | JNull => HNull
  | JBool b => HBool b
  | JInt n => HInt n
  | JFloat f => HFloat f
  | JStr s => HStr s
  | JList l =>
      HList l
        ((fix go (l : list json) : Forall P l :=
            match l with
            | [] => Forall_nil P
            | x :: xs => Forall_cons x (json_ind_nested x) (go xs)
            end) l)
  | JDict d =>
      HDict d
        ((fix go (d : list (string * json)) : Forall (fun kv => P (snd kv)) d :=
            match d with
            | [] => Forall_nil _
            | kv :: xs =>
                Forall_cons (P := fun kv => P (snd kv)) kv
                  (json_ind_nested (snd kv)) (go xs)
            end) d)
  end.
End JsonInd.

(** [dict.get(key)]: [None] when the key is absent. *)
Fixpoint dict_get (d : list (string * json)) (key : string) : option json :=
  match d with
  | [] => None
  | (k, v) :: rest => if String.eqb k key then Some v else dict_get rest key
  end.

(** [isinstance(data, dict)] *)
Definition is_dict (v : json) : bool :=
  match v with
  | JDict _ => true
  | _ => false
  end.

(** [x == False] for the result [x] of [dict.get]: Python compares [bool],
    [int] and [float] numerically, so [False], [0], [0.0] and [-0.0] are equal
    to [False]; [None], strings, lists and dicts are not. *)
Definition py_eq_False (x : option json) : bool :=
  match x with
  | Some (JBool b) => negb b
  | Some (JInt n) => (n =? 0)%Z
  | Some (JFloat f) => float_is_zero f
  | _ => false
  end.

(** No float of the value is not-a-number or an infinity. *)
Fixpoint all_finite (v : json) : bool :=
  match v with
  | JFloat (PyFinite _) => true
  | JFloat _ => false
  | JList l => forallb all_finite l
  | JDict d => forallb (fun kv => all_finite (snd kv)) d
  | _ => true
  end.

(** ** [json.dumps]

    [json.encoder]: [py_encode_basestring] ([ensure_ascii=False]),
    [py_encode_basestring_ascii] ([ensure_ascii=True]), [floatstr] and the
    generator [_make_iterencode], whose chunks are concatenated by
    [json.dumps]. *)

Module Encoder.

(** [ESCAPE_DCT]: the short escapes, and [\u00XX] for the other characters
    below 0x20. *)
Definition escape_dct (c : ascii) : option string :=
  let n := code c in
  if (n =? 92)%N then Some (String backslash (String backslash ""))
  else if (n =? 34)%N then Some (String backslash (String dquote ""))
  else if (n =? 8)%N then Some (String backslash "b")
  else if (n =? 12)%N then Some (String backslash "f")
  else if (n =? 10)%N then Some (String backslash "n")
  else if (n =? 13)%N then Some (String backslash "r")
  else if (n =? 9)%N then Some (String backslash "t")
  else if (n <? 32)%N then Some (String backslash (String "u" (hex4 n)))
  else None.

(** [ESCAPE.sub(replace, s)]: [ESCAPE] matches the characters below 0x20, the
    backslash and the double quote, which are exactly the keys of
    [ESCAPE_DCT]. *)
Fixpoint escape (s : string) : string :=
  match s with
  | "" => ""
  | String c r =>
      match escape_dct c with
      | Some e => e ++ escape r
      | None => String c (escape r)
      end
  end.

Definition py_encode_basestring (s : string) : string :=
  String dquote (escape s ++ String dquote "").

(** The escape of one code point outside [' '..'~'] that [ESCAPE_DCT] does not
    list: [\uXXXX], or a surrogate pair above the basic plane. *)
Definition escape_code_point (n : N) : string :=
  if (n <? 65536)%N then String backslash (String "u" (hex4 n))
  else
    let m := (n - 65536)%N in
    let s1 := N.lor 55296 (N.land (N.shiftr m 10) 1023) in
    let s2 := N.lor 56320 (N.land m 1023) in
    String backslash (String "u" (hex4 s1))
      ++ String backslash (String "u" (hex4 s2)).

(** The six payload bits of a UTF-8 continuation byte. *)
Definition cont_bits (c : ascii) : N := N.land (code c) 63.

(** [ESCAPE_ASCII.sub(replace, s)]: [ESCAPE_ASCII] matches the backslash, the
    double quote and every character outside the range from space to tilde.
    Read off the UTF-8 encoding of [s]: a lead byte and its continuation bytes
    give one code point. *)
Fixpoint escape_ascii (s : string) : string :=
  match s with
  | "" => ""
  | String c r =>
      let n := code c in
      if (n <? 128)%N then
        match escape_dct c with
        | Some e => e ++ escape_ascii r
        | None =>
            if (n =? 127)%N then escape_code_point n ++ escape_ascii r
            else String c (escape_ascii r)
        end
      else if (n <? 224)%N then
        match r with
        | String c1 r1 =>
            escape_code_point
              (N.lor (N.shiftl (N.land n 31) 6) (cont_bits c1))
              ++ escape_ascii r1
        | "" => escape_code_point n
        end
      else if (n <? 240)%N then
        match r with
        | String c1 (String c2 r2) =>
            escape_code_point
              (N.lor (N.shiftl (N.land n 15) 12)
                 (N.lor (N.shiftl (cont_bits c1) 6) (cont_bits c2)))
              ++ escape_ascii r2
        | _ => escape_code_point n
        end
      else
        match r with
        | String c1 (String c2 (String c3 r3)) =>
            escape_code_point
              (N.lor (N.shiftl (N.land n 7) 18)
                 (N.lor (N.shiftl (cont_bits c1) 12)
                    (N.lor (N.shiftl (cont_bits c2) 6) (cont_bits c3))))
              ++ escape_ascii r3
        | _ => escape_code_point n
        end
  end.

Definition py_encode_basestring_ascii (s : string) : string :=
  String dquote (escape_ascii s ++ String dquote "").

(** [floatstr] with [allow_nan] left at its default [True]: the words for
    not-a-number and the infinities, [float.__repr__] otherwise. *)
Definition floatstr (o : pyfloat) : string :=
  match o with
  | PyNaN => "NaN"
  | PyInf => "Infinity"
  | PyNegInf => "-Infinity"
  | PyFinite l => float_repr l
  end.

Section Iterencode.
(** The parameters [json.dumps] fixes for one call. *)
Variable ensure_ascii : bool.
Variable indent : option nat.

Definition _encoder (s : string) : string :=
  if ensure_ascii then py_encode_basestring_ascii s
  else py_encode_basestring s.

(** [JSONEncoder.__init__]: [', '] without an indent, [','] with one. *)
Definition _item_separator : string :=
  match indent with
  | None => ", "
  | Some _ => ","
  end.

Definition _key_separator : string := ": ".

(** ['\n' + _indent * _current_indent_level], absent without an indent. *)
Definition newline_indent (level : nat) : string :=
  match indent with
  | None => ""
  | Some k => String LF (spaces (k * level))
  end.

(** [_iterencode], [_iterencode_list] and [_iterencode_dict] at
    [_current_indent_level = level]; the inner loops are the [for] loops with
    their [first] flag. *)
Fixpoint _iterencode (level : nat) (o : json) : string :=
  match o with
  | JStr s => _encoder s
  | JNull => "null"
  | JBool true => "true"
  | JBool false => "false"
  | JInt n => py_str_int n
  | JFloat f => floatstr f
  | JList [] => "[]"
  | JList (x :: xs) =>
      "[" ++ newline_indent (S level) ++ _iterencode (S level) x
        ++ (fix rest (l : list json) : string :=
              match l with
              | [] => ""
              | y :: ys =>
                  (_item_separator ++ newline_indent (S level))
                    ++ _iterencode (S level) y ++ rest ys
              end) xs
        ++ newline_indent level ++ "]"
  | JDict [] => "{}"
  | JDict ((k, v) :: kvs) =>
      "{" ++ newline_indent (S level)
        ++ _encoder k ++ _key_separator ++ _iterencode (S level) v
        ++ (fix rest (l : list (string * json)) : string :=
              match l with
              | [] => ""
              | (k', v') :: l' =>
                  (_item_separator ++ newline_indent (S level))
                    ++ _encoder k' ++ _key_separator
                    ++ _iterencode (S level) v' ++ rest l'
              end) kvs
        ++ newline_indent level ++ "}"
  end.
End Iterencode.

End Encoder.

(** [json.dumps(obj, ensure_ascii=..., indent=...)] *)
Definition json_dumps (ensure_ascii : bool) (indent : option nat) (obj : json) : string :=
  Encoder._iterencode ensure_ascii indent 0 obj.

(** ** Reading JSON text

    The reader against which the text returned by a tool is judged: the
    grammar of RFC 8259.  A number without fraction and exponent is an
    integer; any other number is the float with that numeral.  An escape
    naming a lone surrogate is rejected.  An object is read as the ordered
    list of its members.  With [allow_nan] the reader also takes the words
    [NaN], [Infinity] and [-Infinity], which are not JSON, as the scanner of
    Python's [json] does. *)

Module Decoder.

Fixpoint skip_ws (s : string) : string :=
  match s with
  | String c r => if is_ws c then skip_ws r else s
  | "" => ""
  end.

Definition byte (n : N) : ascii := ascii_of_N n.

(** The UTF-8 encoding of a code point that is not a surrogate. *)
Definition utf8_encode (n : N) : option string :=
  if (n <? 128)%N then Some (String (byte n) "")
  else if (n <? 2048)%N then
    Some (String (byte (N.lor 192 (N.shiftr n 6)))
            (String (byte (N.lor 128 (N.land n 63))) ""))
  else if (n <? 65536)%N then
    if ((55296 <=? n) && (n <=? 57343))%N then None
    else
      Some (String (byte (N.lor 224 (N.shiftr n 12)))
              (String (byte (N.lor 128 (N.land (N.shiftr n 6) 63)))
                 (String (byte (N.lor 128 (N.land n 63))) "")))
  else if (n <? 1114112)%N then
    Some (String (byte (N.lor 240 (N.shiftr n 18)))
            (String (byte (N.lor 128 (N.land (N.shiftr n 12) 63)))
               (String (byte (N.lor 128 (N.land (N.shiftr n 6) 63)))
                  (String (byte (N.lor 128 (N.land n 63))) ""))))
  else None.

(** The number written by four hexadecimal digits. *)
Definition hex4_value (a b c d : ascii) : option N :=
  match hex_value a, hex_value b, hex_value c, hex_value d with
  | Some x, Some y, Some z, Some w => Some (((x * 16 + y) * 16 + z) * 16 + w)%N
  | _, _, _, _ => None
  end.

(** The character a one-letter escape stands for. *)
Definition unescape (e : ascii) : option ascii :=
  let n := code e in
  if (n =? 34)%N then Some dquote
  else if (n =? 92)%N then Some backslash
  else if (n =? 47)%N then Some "/"%char
  else if (n =? 98)%N then Some BS
  else if (n =? 102)%N then Some FF
  else if (n =? 110)%N then Some LF
  else if (n =? 114)%N then Some CR
  else if (n =? 116)%N then Some TAB
  else None.

Definition prepend (p : string) (r : option (string * string)) : option (string * string) :=
  match r with
  | Some (s, rest) => Some (p ++ s, rest)
  | None => None
  end.

(** The content of a string literal, read from just after its opening quote,
    and the text after its closing quote. *)
Fixpoint scan_string (s : string) : option (string * string) :=
  match s with
  | "" => None
  | String c r =>
      if (code c =? 34)%N then Some ("", r)
      else if (code c =? 92)%N then
        match r with
        | "" => None
        | String e r1 =>
            if (code e =? 117)%N then
              match r1 with
              | String h1 (String h2 (String h3 (String h4 r2))) =>
                  match hex4_value h1 h2 h3 h4 with
                  | None => None
                  | Some n =>
                      if ((55296 <=? n) && (n <=? 56319))%N then
                        match r2 with
                        | String b (String u (String l1 (String l2 (String l3 (String l4 r3))))) =>
                            if ((code b =? 92) && (code u =? 117))%N then
                              match hex4_value l1 l2 l3 l4 with
                              | None => None
                              | Some m =>
                                  if ((56320 <=? m) && (m <=? 57343))%N then
                                    match utf8_encode (65536 + (N.shiftl (n - 55296) 10) + (m - 56320))%N with
                                    | Some p => prepend p (scan_string r3)
                                    | None => None
                                    end
                                  else None
                              end
                            else None
                        | _ => None
                        end
                      else
                        match utf8_encode n with
                        | Some p => prepend p (scan_string r2)
                        | None => None
                        end
                  end
              | _ => None
              end
            else
              match unescape e with
              | Some x => prepend (String x "") (scan_string r1)
              | None => None
              end
        end
      else if (code c <? 32)%N then None
      else prepend (String c "") (scan_string r)
  end.

(** The longest prefix of decimal digits, and what follows it. *)
Fixpoint span_digits (s : string) : string * string :=
  match s with
  | String c r =>
      if is_digit c then let (ds, rest) := span_digits r in (String c ds, rest)
      else ("", s)
  | "" => ("", "")
  end.

(** The longest prefix of decimal digits, digit by digit. *)
Definition digit_of_char (c : ascii) : digits :=
  match (code c - 48)%N with
  | 0 => d0 | 1 => d1 | 2 => d2 | 3 => d3 | 4 => d4
  | 5 => d5 | 6 => d6 | 7 => d7 | 8 => d8 | _ => d9
  end%N.

Fixpoint span_digit_list (s : string) : list digits * string :=
  match s with
  | String c r =>
      if is_digit c then
        let (ds, rest) := span_digit_list r in (digit_of_char c :: ds, rest)
      else ([], s)
  | "" => ([], "")
  end.

(** The character after a number must not continue it. *)
Definition ends_number (rest : string) : bool :=
  match rest with
  | "" => true
  | String c _ =>
      negb (is_digit c || (code c =? 46) || (code c =? 101) || (code c =? 69))%N
  end.

(** The digits of an integer: one zero, or a non-zero digit and more digits. *)
Definition well_formed_digits (ds : string) : bool :=
  match ds with
  | "" => false
  | String c r => negb (code c =? 48)%N || String.eqb r ""
  end.

(** The fraction of a number, if it has one: a point and one or more digits.
    [None] for a point without digits. *)
Definition scan_fraction (s : string) : option (option digit_seq * string) :=
  match s with
  | String c r =>
      if (code c =? 46)%N then
        match span_digit_list r with
        | (d :: ds, rest) => Some (Some (d, ds), rest)
        | ([], _) => None
        end
      else Some (None, s)
  | "" => Some (None, "")
  end.

(** The exponent of a number, if it has one: [e] or [E], an optional sign and
    one or more digits. *)
Definition scan_exponent (s : string) : option (option exponent * string) :=
  match s with
  | String c r =>
      if ((code c =? 101) || (code c =? 69))%N then
        let (minus, r1) :=
          match r with
          | String sg r' =>
              if (code sg =? 45)%N then (true, r')
              else if (code sg =? 43)%N then (false, r')
              else (false, r)
          | "" => (false, r)
          end in
        match span_digit_list r1 with
        | (d :: ds, rest) =>
            Some (Some {| exp_negative := minus; exp_digits := (d, ds) |}, rest)
        | ([], _) => None
        end
      else Some (None, s)
  | "" => Some (None, "")
  end.

(** The number with sign [minus] and integer digits [u], read on into [s]
    for a fraction and an exponent.  Without either it is an integer,
    otherwise the float with that numeral. *)
Definition number_of (minus : bool) (u : uint) (s : string) : option (json * string) :=
  match scan_fraction s with
  | None => None
  | Some (frac, r2) =>
      match scan_exponent r2 with
      | None => None
      | Some (exp, r3) =>
          let float t :=
            JFloat (PyFinite {| negative := minus;
                                int_part := N.of_uint u;
                                tail := t |}) in
          match frac, exp with
          | None, None =>
              Some (JInt (if minus then (- Z.of_uint u)%Z else Z.of_uint u), r3)
          | Some f, _ => Some (float (Fraction f exp), r3)
          | None, Some e => Some (float (Exponent e), r3)
          end
      end
  end.

(** A number: an optional minus sign, well-formed integer digits, then an
    optional fraction and an optional exponent. *)
Definition scan_number (s : string) : option (json * string) :=
  let (minus, s1) :=
    match s with
    | String c r => if (code c =? 45)%N then (true, r) else (false, s)
    | "" => (false, s)
    end in
  let (ds, r1) := span_digits s1 in
  if well_formed_digits ds then
    match NilEmpty.uint_of_string ds with
    | None => None
    | Some u => number_of minus u r1
    end
  else None.

(** [s] starts with the word [w]: what follows it. *)
Fixpoint strip_prefix (w s : string) : option string :=
  match w, s with
  | "", _ => Some s
  | String a w', String b s' => if Ascii.eqb a b then strip_prefix w' s' else None
  | String _ _, "" => None
  end.

Definition literal (w : string) (v : json) (s : string) : option (json * string) :=
  match strip_prefix w s with
  | Some rest => Some (v, rest)
  | None => None
  end.

Section Reader.
(** Whether the words for not-a-number and the infinities are read. *)
Variable allow_nan : bool.

(** A value at the head of [s]; [parse_items] reads the elements of an array
    from its first element to the closing bracket, [parse_members] the members
    of an object from the quote of its first key to the closing brace.  [fuel]
    bounds the nesting and the number of elements; the length of the text is
    enough of it. *)
Fixpoint parse_value (fuel : nat) (s : string) : option (json * string) :=
  match fuel with
  | O => None
  | S fuel' =>
      match s with
      | "" => None
      | String c r =>
          let n := code c in
          if (n =? 45)%N || is_digit c then
            match scan_number s with
            | Some (v, rest) => Some (v, rest)
            | None =>
                if allow_nan then literal "-Infinity" (JFloat PyNegInf) s
                else None
            end
          else if (n =? 34)%N then
            match scan_string r with
            | Some (x, rest) => Some (JStr x, rest)
            | None => None
            end
          else if (n =? 91)%N then
            match skip_ws r with
            | "" => None
            | String c1 r1 =>
                if (code c1 =? 93)%N then Some (JList [], r1)
                else
                  match parse_items fuel' (String c1 r1) with
                  | Some (l, rest) => Some (JList l, rest)
                  | None => None
                  end
            end
          else if (n =? 123)%N then
            match skip_ws r with
            | "" => None
            | String c1 r1 =>
                if (code c1 =? 125)%N then Some (JDict [], r1)
                else
                  match parse_members fuel' (String c1 r1) with
                  | Some (d, rest) => Some (JDict d, rest)
                  | None => None
                  end
            end
          else if (n =? 110)%N then literal "null" JNull s
          else if (n =? 116)%N then literal "true" (JBool true) s
          else if (n =? 102)%N then literal "false" (JBool false) s
          else if allow_nan && (n =? 78)%N then literal "NaN" (JFloat PyNaN) s
          else if allow_nan && (n =? 73)%N then literal "Infinity" (JFloat PyInf) s
          else None
      end
  end
with parse_items (fuel : nat) (s : string) : option (list json * string) :=
  match fuel with
  | O => None
  | S fuel' =>
      match parse_value fuel' s with
      | None => None
      | Some (v, r) =>
          match skip_ws r with
          | "" => None
          | String c r1 =>
              if (code c =? 93)%N then Some ([v], r1)
              else if (code c =? 44)%N then
                match parse_items fuel' (skip_ws r1) with
                | Some (vs, rest) => Some (v :: vs, rest)
                | None => None
                end
              else None
          end
      end
  end
with parse_members (fuel : nat) (s : string) : option (list (string * json) * string) :=
  match fuel with
  | O => None
  | S fuel' =>
      match s with
      | "" => None
      | String q r =>
          if (code q =? 34)%N then
            match scan_string r with
            | None => None
            | Some (k, r1) =>
                match skip_ws r1 with
                | "" => None
                | String c r2 =>
                    if (code c =? 58)%N then
                      match parse_value fuel' (skip_ws r2) with
                      | None => None
                      | Some (v, r3) =>
                          match skip_ws r3 with
                          | "" => None
                          | String c' r4 =>
                              if (code c' =? 125)%N then Some ([(k, v)], r4)
                              else if (code c' =? 44)%N then
                                match parse_members fuel' (skip_ws r4) with
                                | Some (kvs, rest) => Some ((k, v) :: kvs, rest)
                                | None => None
                                end
                              else None
                          end
                      end
                    else None
                end
            end
          else None
      end
  end.

(** One value, with white space allowed around it. *)
Definition parse_document (s : string) : option json :=
  match parse_value (S (String.length s)) (skip_ws s) with
  | Some (v, rest) =>
      match skip_ws rest with
      | "" => Some v
      | String _ _ => None
      end
  | None => None
  end.
End Reader.

End Decoder.

(** The JSON value a text denotes, if it is a JSON document. *)
Definition parse_json (s : string) : option json :=
  Decoder.parse_document false s.

(** The same, with [NaN], [Infinity] and [-Infinity] read as floats: the
    texts [json.dumps] writes, a superset of JSON. *)
Definition parse_json_or_constants (s : string) : option json :=
  Decoder.parse_document true s.

(** ** The HTTP client, exceptions and logging *)

(** [httpx.Timeout(connect=..., read=..., write=..., pool=...)], in seconds. *)
Record Timeout : Type := {
  connect : Z;
  read : Z;
  write : Z;
  pool : Z
}.

Inductive Method : Type := POST.

(** One call [client.post(url, json=..., headers=..., timeout=...)]. *)
Record Request : Type := {
  method : Method;
  url : string;
  body : json;
  headers : list (string * string);
  timeout : Timeout
}.

(** What [r.json()] does on a response: the decoded body, or the exception
    ([JSONDecodeError], [UnicodeDecodeError]) it raises on a malformed one. *)
Inductive json_outcome : Type :=
| JsonValue (v : json)
| JsonFailure (cls : string) (message : string).

(** [httpx.Response]: [r.status_code], [r.text] and the outcome of
    [r.json()]. *)
Record Response : Type := {
  status_code : Z;
  text : string;
  json_body : json_outcome
}.

(** The subclasses of [httpx.TimeoutException], one per phase. *)
Inductive timeout_phase : Type :=
| ConnectTimeout
| ReadTimeout
| WriteTimeout
| PoolTimeout.

(** Instances of [Exception], by what the [except] clauses tell apart:
    [httpx.TimeoutException], [httpx.HTTPStatusError] with its [response], and
    every other class, given by its name.  Each carries [str(e)]. *)
Inductive pyexn : Type :=
| TimeoutException (phase : timeout_phase) (message : string)
| HTTPStatusError (message : string) (response : Response)
| OtherException (cls : string) (message : string).

(** [str(e)] *)
Definition exn_str (e : pyexn) : string :=
  match e with
  | TimeoutException _ m => m
  | HTTPStatusError m _ => m
  | OtherException _ m => m
  end.

(** [type(e).__name__] *)
Definition exn_name (e : pyexn) : string :=
  match e with
  | TimeoutException ConnectTimeout _ => "ConnectTimeout"
  | TimeoutException ReadTimeout _ => "ReadTimeout"
  | TimeoutException WriteTimeout _ => "WriteTimeout"
  | TimeoutException PoolTimeout _ => "PoolTimeout"
  | HTTPStatusError _ _ => "HTTPStatusError"
  | OtherException cls _ => cls
  end.

(** The upstream service as one call sees it through httpx: what
    [client.post] does with the request of that call (an exception or a
    response), and the message httpx gives the [HTTPStatusError] of a
    response.  The service may answer the next call differently: successive
    calls are run against an [Upstream] each. *)
Record Upstream : Type := {
  send : Request -> pyexn + Response;
  status_error_message : Response -> string
}.

Inductive level : Type := INFO | ERROR.

(** One piece of a formatted log message: text, or a value of the JSON
    result formatted by [str()] ([None] for an absent key). *)
Inductive fragment : Type :=
| Text (s : string)
| Value (v : option json).

Record LogRecord : Type := {
  levelname : level;
  msg : list fragment;
  exc_info : bool
}.

(** What a call leaves behind: the requests sent and the records logged,
    oldest first. *)
Record World : Type := {
  sent : list Request;
  log : list LogRecord
}.

Definition world0 : World := {| sent := []; log := [] |}.

(** ** Computations: state, and exceptions as in Python *)

Inductive outcome (A : Type) : Type :=
| Return (a : A)
| Raise (e : pyexn).
Arguments Return {A} a.
Arguments Raise {A} e.

Definition Py (A : Type) : Type := Upstream -> World -> outcome A * World.

Definition ret {A} (a : A) : Py A := fun _ w => (Return a, w).

Definition raise {A} (e : pyexn) : Py A := fun _ w => (Raise e, w).

Definition bind {A B} (m : Py A) (k : A -> Py B) : Py B :=
  fun u w =>
    match m u w with
    | (Return a, w') => k a u w'
    | (Raise e, w') => (Raise e, w')
    end.

(** [try: body  except Exception as e: handler] *)
Definition try_except {A} (body : Py A) (handler : pyexn -> Py A) : Py A :=
  fun u w =>
    match body u w with
    | (Return a, w') => (Return a, w')
    | (Raise e, w') => handler e u w'
    end.

Declare Scope py_scope.
Delimit Scope py_scope with py.
Notation "x <- m ;; k" := (bind m (fun x => k))
  (at level 61, m at next level, right associativity) : py_scope.
Notation "m ;; k" := (bind m (fun _ => k))
  (at level 61, right associativity) : py_scope.
#[local] Open Scope py_scope.

Definition logger_log (l : level) (exc : bool) (m : list fragment) : Py unit :=
  fun _ w =>
    (Return tt,
     {| sent := sent w;
        log := (log w ++ [{| levelname := l; msg := m; exc_info := exc |}])%list |}).

(** [logger.info(msg)] *)
Definition logger_info (m : list fragment) : Py unit := logger_log INFO false m.

(** [logger.error(msg)] and [logger.error(msg, exc_info=True)] *)
Definition logger_error (m : list fragment) : Py unit := logger_log ERROR false m.
Definition logger_error_exc_info (m : list fragment) : Py unit := logger_log ERROR true m.

(** [httpx.AsyncClient]: the handle a call holds inside [async with]. *)
Inductive AsyncClient : Type := the_client.

(** [async with httpx.AsyncClient() as client: body] *)
Definition with_AsyncClient {A} (body : AsyncClient -> Py A) : Py A :=
  body the_client.

(** [await client.post(url, json=data, headers=headers, timeout=timeout)]:
    the request goes out, and the upstream decides what comes back. *)
Definition client_post (client : AsyncClient) (url : string) (data : json)
    (headers : list (string * string)) (timeout : Timeout) : Py Response :=
  fun u w =>
    let request :=
      {| method := POST; url := url; body := data;
         headers := headers; timeout := timeout |} in
    let w' := {| sent := (sent w ++ [request])%list; log := log w |} in
    match send u request with
    | inl e => (Raise e, w')
    | inr r => (Return r, w')
    end.

(** [r.is_success]: a status code from 200 to 299. *)
Definition is_success (r : Response) : bool :=
  ((200 <=? status_code r) && (status_code r <=? 299))%Z.

(** [r.raise_for_status()] *)
Definition raise_for_status (r : Response) : Py unit :=
  fun u w =>
    if is_success r then (Return tt, w)
    else (Raise (HTTPStatusError (status_error_message u r) r), w).

(** [r.json()] *)
Definition response_json (r : Response) : Py json :=
  match json_body r with
  | JsonValue v => ret v
  | JsonFailure cls m => raise (OtherException cls m)
  end.

(** ** [server.py] *)

Definition API_BASE : string := "http://103.42.50.33:8000".

Definition _api_post (client : AsyncClient) (endpoint : string) (data : json) : Py json :=
  let url := API_BASE ++ endpoint in
  logger_info [Text "Making API request to: "; Text url] ;;
  logger_info [Text "Request data: "; Text (json_dumps true (Some 2%nat) data)] ;;
  try_except
    (let timeout :=
       {| connect := 600; read := 600; write := 600; pool := 600 |} in
     r <- client_post client url data
            [("Content-Type", "application/json")] timeout ;;
     raise_for_status r ;;
     logger_info [Text "API request successful - Status: ";
                  Text (py_str_int (status_code r))] ;;
     response_json r)
    (fun e =>
       match e with
       | TimeoutException _ _ =>
           logger_error [Text "Timeout error: "; Text (exn_str e)] ;;
           ret (JDict
                  [("error", JStr "Request timed out. The API is taking longer than expected. Please try again.");
                   ("error_type", JStr "timeout");
                   ("success", JBool false)])
       | HTTPStatusError _ response =>
           logger_error [Text "HTTP error: ";
                         Text (py_str_int (status_code response));
                         Text " - "; Text (text response)] ;;
           ret (JDict
                  [("error", JStr ("API returned error: " ++ py_str_int (status_code response)));
                   ("error_details", JStr (text response));
                   ("success", JBool false)])
       | OtherException _ _ =>
           logger_error [Text "Request error: "; Text (exn_str e)] ;;
           ret (JDict
                  [("error", JStr ("Request failed: " ++ exn_str e));
                   ("error_type", JStr (exn_name e));
                   ("success", JBool false)])
       end).

(** [data.get(key)] on a value that passed [isinstance(data, dict)]. *)
Definition get (data : json) (key : string) : option json :=
  match data with
  | JDict d => dict_get d key
  | _ => None
  end.

(** [isinstance(data, dict) and data.get("success") == False] *)
Definition declares_failure (data : json) : bool :=
  is_dict data && py_eq_False (get data "success").

(** The document the tools return from their own [except Exception]. *)
Definition unexpected_error (e : pyexn) : json :=
  JDict
    [("error", JStr ("Unexpected error: " ++ exn_str e));
     ("error_type", JStr (exn_name e));
     ("success", JBool false)].

Section Tools.
(** The function the module-level name [_api_post] is bound to when a tool
    runs: the tools look the name up at call time. *)
Variable api_post : AsyncClient -> string -> json -> Py json.

Definition generate_story_with (prompt : string) : Py string :=
  logger_info [Text "generate_story called with prompt length: ";
               Text (py_str_int (py_len prompt)); Text " chars"] ;;
  logger_info [Text "Story generation started - this may take a few minutes..."] ;;
  try_except
    (with_AsyncClient (fun client =>
       data <- api_post client "/story" (JDict [("question", JStr prompt)]) ;;
       if declares_failure data then
         logger_error [Text "Story generation failed: "; Value (get data "error")] ;;
         ret (json_dumps false (Some 2%nat) data)
       else
         logger_info [Text "Story generated successfully"] ;;
         ret (json_dumps false (Some 2%nat) data)))
    (fun e =>
       logger_error_exc_info [Text "Error in generate_story: "; Text (exn_str e)] ;;
       ret (json_dumps false None (unexpected_error e))).

Definition generate_episodic_beats_from_file_with (file_path : string) : Py string :=
  logger_info [Text "generate_episodic_beats_from_file called with file_path: ";
               Text file_path] ;;
  logger_info [Text "Episodic beat generation started - this may take a few minutes..."] ;;
  try_except
    (with_AsyncClient (fun client =>
       data <- api_post client "/episodic_beats_from_file"
                 (JDict [("file_path", JStr file_path)]) ;;
       if declares_failure data then
         logger_error [Text "Episodic beat generation failed: "; Value (get data "error")] ;;
         ret (json_dumps false (Some 2%nat) data)
       else
         logger_info [Text "Episodic beats generated successfully from file"] ;;
         ret (json_dumps false (Some 2%nat) data)))
    (fun e =>
       logger_error_exc_info
         [Text "Error in generate_episodic_beats_from_file: "; Text (exn_str e)] ;;
       ret (json_dumps false None (unexpected_error e))).

Definition ask_vector_db_with (prompt : string) : Py string :=
  logger_info [Text "ask_vector_db called with prompt length: ";
               Text (py_str_int (py_len prompt)); Text " chars"] ;;
  logger_info [Text "Vector DB query started - this may take up to a minute..."] ;;
  try_except
    (with_AsyncClient (fun client =>
       data <- api_post client "/ask" (JDict [("question", JStr prompt)]) ;;
       if declares_failure data then
         logger_error [Text "Vector DB query failed: "; Value (get data "error")] ;;
         ret (json_dumps false (Some 2%nat) data)
       else
         logger_info [Text "Vector DB query successful"] ;;
         ret (json_dumps false (Some 2%nat) data)))
    (fun e =>
       logger_error_exc_info [Text "Error in ask_vector_db: "; Text (exn_str e)] ;;
       ret (json_dumps false None (unexpected_error e))).
End Tools.

Definition generate_story : string -> Py string :=
  generate_story_with _api_post.

Definition generate_episodic_beats_from_file : string -> Py string :=
  generate_episodic_beats_from_file_with _api_post.

Definition ask_vector_db : string -> Py string :=
  ask_vector_db_with _api_post.

(** The three functions registered by [@mcp.tool()]. *)
Inductive tool : Type :=
| tool_generate_story
| tool_generate_episodic_beats_from_file
| tool_ask_vector_db.

Definition call_tool_with (api_post : AsyncClient -> string -> json -> Py json)
    (t : tool) (argument : string) : Py string :=
  match t with
  | tool_generate_story => generate_story_with api_post argument
  | tool_generate_episodic_beats_from_file =>
      generate_episodic_beats_from_file_with api_post argument
  | tool_ask_vector_db => ask_vector_db_with api_post argument
  end.

Definition call_tool : tool -> string -> Py string := call_tool_with _api_post.


(** ** What the specification names *)

(** The endpoint and the body field of each tool. *)
Definition endpoint_of (t : tool) : string :=
  match t with
  | tool_generate_story => "/story"
  | tool_generate_episodic_beats_from_file => "/episodic_beats_from_file"
  | tool_ask_vector_db => "/ask"
  end.

Definition field_of (t : tool) : string :=
  match t with
  | tool_generate_story => "question"
  | tool_generate_episodic_beats_from_file => "file_path"
  | tool_ask_vector_db => "question"
  end.

(** The one request a call of tool [t] with [argument] is specified to send. *)
Definition request_of (t : tool) (argument : string) : Request :=
  {| method := POST;
     url := API_BASE ++ endpoint_of t;
     body := JDict [(field_of t, JStr argument)];
     headers := [("Content-Type", "application/json")];
     timeout := {| connect := 600; read := 600; write := 600; pool := 600 |} |}.

(** The classified failures of the specification, and the one, if any, that a
    call of the upstream with request [q] falls under. *)
Inductive failure : Type :=
| timeout_failure
| http_status_error
| transport_error.

Definition classify (u : Upstream) (q : Request) : option failure :=
  match send u q with
  | inl (TimeoutException _ _) => Some timeout_failure
  | inl (HTTPStatusError _ _) => Some http_status_error
  | inl (OtherException _ _) => Some transport_error
  | inr r =>
      if is_success r then
        match json_body r with
        | JsonValue _ => None
        | JsonFailure _ _ => Some transport_error
        end
      else Some http_status_error
  end.

(** [s.startswith(sub)] *)
Fixpoint startswith (s sub : string) : bool :=
  match sub, s with
  | "", _ => true
  | String a sub', String b s' => Ascii.eqb a b && startswith s' sub'
  | String _ _, "" => false
  end.

(** [sub in s] *)
Fixpoint contains (s sub : string) : bool :=
  startswith s sub
  || match s with
     | "" => false
     | String _ r => contains r sub
     end.

(** Pieces of expected texts: a word between double quotes, and a line
    break. *)
Definition quoted (s : string) : string := String dquote (s ++ String dquote "").
Definition nl : string := String LF "".

(** Upstreams and responses used as examples. *)
Definition upstream_replying (r : Response) : Upstream :=
  {| send := fun _ => inr r; status_error_message := fun _ => "status error" |}.

Definition upstream_raising (e : pyexn) : Upstream :=
  {| send := fun _ => inl e; status_error_message := fun _ => "status error" |}.

Definition response_declared_failure : Response :=
  {| status_code := 200;
     text := "{ }";
     json_body :=
       JsonValue (JDict [("success", JBool false); ("detail", JStr "no story")]) |}.

Definition response_500 : Response :=
  {| status_code := 500;
     text := "Internal Server Error";
     json_body := JsonFailure "JSONDecodeError" "Expecting value: line 1 column 1 (char 0)" |}.

Definition response_not_json : Response :=
  {| status_code := 200;
     text := "<html>";
     json_body := JsonFailure "JSONDecodeError" "Expecting value: line 1 column 1 (char 0)" |}.

Definition response_array : Response :=
  {| status_code := 200;
     text := "[1, null]";
     json_body := JsonValue (JList [JInt 1; JNull]) |}.

(** Bodies that are JSON and hold a number too large for a float: [r.json()]
    reads [1e400] as [float('inf')]. *)
Definition response_overflow : Response :=
  {| status_code := 200;
     text := "[1e400]";
     json_body := JsonValue (JList [JFloat PyInf]) |}.

Definition response_overflow_field : Response :=
  {| status_code := 200;
     text := "{" ++ quoted "score" ++ ": 1e400}";
     json_body := JsonValue (JDict [("score", JFloat PyInf)]) |}.

Definition response_overflow_number : Response :=
  {| status_code := 200;
     text := "-1e400";
     json_body := JsonValue (JFloat PyNegInf) |}.

(** A body that is a number with a fraction: [r.json()] reads [1.5] as the
    float [1.5]. *)
Definition float_1_5 : pyfloat :=
  PyFinite {| negative := false; int_part := 1; tail := Fraction (d5, []) None |}.

Definition response_number : Response :=
  {| status_code := 200;
     text := "1.5";
     json_body := JsonValue (JFloat float_1_5) |}.

(** A body whose [success] is the float zero. *)
Definition response_success_zero : Response :=
  {| status_code := 200;
     text := "{" ++ quoted "success" ++ ": 0.0}";
     json_body :=
       JsonValue
         (JDict [("success",
                  JFloat (PyFinite {| negative := false; int_part := 0;
                                      tail := Fraction (d0, []) None |}))]) |}.

(** The log lines of each tool outside its check of the result. *)
Definition called_message (t : tool) (argument : string) : list fragment :=
  match t with
  | tool_generate_story =>
      [Text "generate_story called with prompt length: ";
       Text (py_str_int (py_len argument)); Text " chars"]
  | tool_generate_episodic_beats_from_file =>
      [Text "generate_episodic_beats_from_file called with file_path: ";
       Text argument]
  | tool_ask_vector_db =>
      [Text "ask_vector_db called with prompt length: ";
       Text (py_str_int (py_len argument)); Text " chars"]
  end.

Definition started_message (t : tool) : list fragment :=
  match t with
  | tool_generate_story =>
      [Text "Story generation started - this may take a few minutes..."]
  | tool_generate_episodic_beats_from_file =>
      [Text "Episodic beat generation started - this may take a few minutes..."]
  | tool_ask_vector_db =>
      [Text "Vector DB query started - this may take up to a minute..."]
  end.

Definition success_message (t : tool) : list fragment :=
  match t with
  | tool_generate_story => [Text "Story generated successfully"]
  | tool_generate_episodic_beats_from_file =>
      [Text "Episodic beats generated successfully from file"]
  | tool_ask_vector_db => [Text "Vector DB query successful"]
  end.

Definition unexpected_message (t : tool) (e : pyexn) : list fragment :=
  match t with
  | tool_generate_story => [Text "Error in generate_story: "; Text (exn_str e)]
  | tool_generate_episodic_beats_from_file =>
      [Text "Error in generate_episodic_beats_from_file: "; Text (exn_str e)]
  | tool_ask_vector_db => [Text "Error in ask_vector_db: "; Text (exn_str e)]
  end.

(** The tools with the branch on the upstream-declared [success] flag taken
    out: the result of the gateway is serialised by the default path whatever
    it says.  This is the tool of the comparison claim, not of [server.py]. *)
Definition tool_without_check
    (api_post : AsyncClient -> string -> json -> Py json)
    (t : tool) (argument : string) : Py string :=
  logger_info (called_message t argument) ;;
  logger_info (started_message t) ;;
  try_except
    (with_AsyncClient (fun client =>
       data <- api_post client (endpoint_of t) (JDict [(field_of t, JStr argument)]) ;;
       logger_info (success_message t) ;;
       ret (json_dumps false (Some 2%nat) data)))
    (fun e =>
       logger_error_exc_info (unexpected_message t e) ;;
       ret (json_dumps false None (unexpected_error e))).

(** What a computation returns, and the requests it sends. *)
Definition result_of {A} (m : Py A) (u : Upstream) (w : World) : outcome A :=
  fst (m u w).

Definition sent_by {A} (m : Py A) (u : Upstream) (w : World) : list Request :=
  sent (snd (m u w)).

Definition logged_by {A} (m : Py A) (u : Upstream) (w : World) : list LogRecord :=
  log (snd (m u w)).

(** The record a tool logs when the result of the gateway declares a failure:
    its text ends with [data.get('error')], which is [None] when the result
    has no such key. *)
Definition failure_message (t : tool) (data : json) : list fragment :=
  match t with
  | tool_generate_story =>
      [Text "Story generation failed: "; Value (get data "error")]
  | tool_generate_episodic_beats_from_file =>
      [Text "Episodic beat generation failed: "; Value (get data "error")]
  | tool_ask_vector_db =>
      [Text "Vector DB query failed: "; Value (get data "error")]
  end.

(** The request [_api_post] builds for an endpoint and a body. *)
Definition api_request (endpoint : string) (data : json) : Request :=
  {| method := POST;
     url := API_BASE ++ endpoint;
     body := data;
     headers := [("Content-Type", "application/json")];
     timeout := {| connect := 600; read := 600; write := 600; pool := 600 |} |}.

(** Every character of [s] satisfies [p]. *)
Fixpoint all_chars (p : ascii -> bool) (s : string) : bool :=
  match s with
  | "" => true
  | String c r => p c && all_chars p r
  end.

(** Character classes: ASCII; not a C0 control character, that is, a byte
    from 0x20 up (DEL and the bytes of the non-ASCII characters, the C1
    controls among them, are of this class); and the characters
    [py_encode_basestring] copies unchanged. *)
Definition is_ascii (c : ascii) : bool := (code c <? 128)%N.

Definition not_C0_control (c : ascii) : bool := (32 <=? code c)%N.

Definition is_copied (c : ascii) : bool :=
  (32 <=? code c)%N && negb (code c =? 34)%N && negb (code c =? 92)%N.

(** The printable ASCII characters, from space to tilde. *)
Definition is_plain_ascii (c : ascii) : bool :=
  (32 <=? code c)%N && (code c <? 127)%N.

(** Not a C0 control character, or the line feed that starts an indented
    line. *)
Definition not_C0_control_or_LF (c : ascii) : bool :=
  not_C0_control c || (code c =? 10)%N.

(** A printable ASCII character, or that line feed. *)
Definition is_plain_ascii_or_LF (c : ascii) : bool :=
  is_plain_ascii c || (code c =? 10)%N.

(** A continuation byte of UTF-8, and well-formed UTF-8: the encodings of the
    code points other than surrogates, each in its shortest form.  The
    encoding of a Python [str] without lone surrogates is well formed. *)
Definition is_cont (c : ascii) : bool :=
  ((128 <=? code c) && (code c <? 192))%N.

Fixpoint valid_utf8 (s : string) : bool :=
  match s with
  | "" => true
  | String c r =>
      let n := code c in
      if (n <? 128)%N then valid_utf8 r
      else if ((194 <=? n) && (n <? 224))%N then
        match r with
        | String c1 r1 => is_cont c1 && valid_utf8 r1
        | _ => false
        end
      else if ((224 <=? n) && (n <? 240))%N then
        match r with
        | String c1 (String c2 r2) =>
            is_cont c1 && is_cont c2
            && (if (n =? 224)%N then (160 <=? code c1)%N else true)
            && (if (n =? 237)%N then (code c1 <? 160)%N else true)
            && valid_utf8 r2
        | _ => false
        end
      else if ((240 <=? n) && (n <? 245))%N then
        match r with
        | String c1 (String c2 (String c3 r3)) =>
            is_cont c1 && is_cont c2 && is_cont c3
            && (if (n =? 240)%N then (144 <=? code c1)%N else true)
            && (if (n =? 244)%N then (code c1 <? 144)%N else true)
            && valid_utf8 r3
        | _ => false
        end
      else false
  end.

(** The number of records logged at level [ERROR]. *)
Definition errors (l : list LogRecord) : nat :=
  List.length
    (List.filter
       (fun r => match levelname r with ERROR => true | INFO => false end) l).

(** ** Measures and loop bodies used by the proofs *)

(** The number of nodes of a value, counting each element once more: the
    fuel [Decoder.parse_value] needs to read its text back. *)
Fixpoint size (v : json) : nat :=
  match v with
  | JList l =>
      S ((fix go (l : list json) : nat :=
            match l with
            | [] => 0
            | x :: xs => S (size x + go xs)
            end) l)
  | JDict d =>
      S ((fix go (d : list (string * json)) : nat :=
            match d with
            | [] => 0
            | kv :: xs => S (size (snd kv) + go xs)
            end) d)
  | _ => 1
  end.

Fixpoint items_size (l : list json) : nat :=
  match l with
  | [] => 0
  | x :: xs => S (size x + items_size xs)
  end.

Fixpoint members_size (d : list (string * json)) : nat :=
  match d with
  | [] => 0
  | kv :: xs => S (size (snd kv) + members_size xs)
  end.

(** What the loops of [_iterencode_list] and [_iterencode_dict] write after
    the first element. *)
Fixpoint encode_items (ensure_ascii : bool) (indent : option nat) (level : nat)
    (l : list json) : string :=
  match l with
  | [] => ""
  | y :: ys =>
      (Encoder._item_separator indent ++ Encoder.newline_indent indent (S level))
        ++ Encoder._iterencode ensure_ascii indent (S level) y
        ++ encode_items ensure_ascii indent level ys
  end.

Fixpoint encode_members (ensure_ascii : bool) (indent : option nat) (level : nat)
    (l : list (string * json)) : string :=
  match l with
  | [] => ""
  | (k, v) :: l' =>
      (Encoder._item_separator indent ++ Encoder.newline_indent indent (S level))
        ++ Encoder._encoder ensure_ascii k ++ Encoder._key_separator
        ++ Encoder._iterencode ensure_ascii indent (S level) v
        ++ encode_members ensure_ascii indent level l'
  end.

(** The text of [v], written at any nesting level and followed by any text
    that does not continue a number, is read back as [v] with enough fuel. *)
Definition reads_back (allow_nan : bool) (indent : option nat) (v : json) : Prop :=
  forall level fuel rest,
    size v <= fuel -> Decoder.ends_number rest = true ->
    Decoder.parse_value allow_nan fuel
      (Encoder._iterencode false indent level v ++ rest)
    = Some (v, rest).

(** A text that does not start with a digit. *)
Definition no_digit (s : string) : Prop :=
  match s with
  | "" => True
  | String c _ => is_digit c = false
  end.

(** The [success] entry of a dict is equal to [False] in Python: it is
    [False], the integer [0], or a float zero, [0.0] or [-0.0]. *)
Definition success_is_falsy (d : list (string * json)) : Prop :=
  dict_get d "success" = Some (JBool false)
  \/ dict_get d "success" = Some (JInt 0)
  \/ exists f, dict_get d "success" = Some (JFloat f) /\ float_is_zero f = true.

(** * Properties *)

(** ** The definitions on concrete inputs *)

Module Examples.

(** [json.dumps({'a': [-1, None], 'b': 'x'}, ensure_ascii=False, indent=2)] *)
Example dumps_indent :
  json_dumps false (Some 2%nat)
    (JDict [("a", JList [JInt (-1); JNull]); ("b", JStr "x")])
  = "{" ++ nl
      ++ "  " ++ quoted "a" ++ ": [" ++ nl
      ++ "    -1," ++ nl
      ++ "    null" ++ nl
      ++ "  ]," ++ nl
      ++ "  " ++ quoted "b" ++ ": " ++ quoted "x" ++ nl
      ++ "}".
Proof. reflexivity. Qed.

(** [json.dumps({'error': 'boom', 'n': [], 'success': False}, ensure_ascii=False)] *)
Example dumps_compact :
  json_dumps false None
    (JDict [("error", JStr "boom"); ("n", JList []); ("success", JBool false)])
  = "{" ++ quoted "error" ++ ": " ++ quoted "boom" ++ ", "
      ++ quoted "n" ++ ": [], " ++ quoted "success" ++ ": false}".
Proof. reflexivity. Qed.

(** A line feed, a control character, a quote and a backslash are escaped;
    [é] is kept with [ensure_ascii=False] and written [é] without. *)
Example dumps_escapes :
  json_dumps false None
    (JStr (String LF (String "001"%char (String dquote (String backslash "é")))))
  = String dquote
      (String backslash "n" ++ String backslash "u0001"
         ++ String backslash (String dquote "")
         ++ String backslash (String backslash "")
         ++ "é" ++ String dquote "")
  /\ json_dumps true None (JStr "é𝄞")
     = String dquote
         (String backslash "u00e9" ++ String backslash "ud834"
            ++ String backslash "udd1e" ++ String dquote "").
Proof. split; reflexivity. Qed.

(** [json.dumps([1.5, -0.0, 1e16, 1.5e-07, float('inf'), float('nan')])] *)
Example dumps_floats :
  json_dumps false None
    (JList
       [JFloat (PyFinite {| negative := false; int_part := 1;
                            tail := Fraction (d5, []) None |});
        JFloat (PyFinite {| negative := true; int_part := 0;
                            tail := Fraction (d0, []) None |});
        JFloat (PyFinite {| negative := false; int_part := 1;
                            tail := Exponent {| exp_negative := false;
                                                exp_digits := (d1, [d6]) |} |});
        JFloat (PyFinite {| negative := false; int_part := 1;
                            tail := Fraction (d5, [])
                                      (Some {| exp_negative := true;
                                               exp_digits := (d0, [d7]) |}) |});
        JFloat PyInf; JFloat PyNaN])
  = "[1.5, -0.0, 1e+16, 1.5e-07, Infinity, NaN]".
Proof. reflexivity. Qed.

(** The reader accepts white space around tokens, and rejects a leading
    zero, a trailing comma, a point without digits and a bare word. *)
Example parse_json_accepts :
  parse_json (" [1 , -20," ++ nl ++ "{ " ++ quoted "k" ++ " : null } ] ")
  = Some (JList [JInt 1; JInt (-20); JDict [("k", JNull)]]).
Proof. reflexivity. Qed.

Example parse_json_rejects :
  parse_json "[01]" = None /\ parse_json "[1,]" = None
  /\ parse_json "1." = None /\ parse_json "1e" = None
  /\ parse_json "True" = None
  /\ parse_json "" = None /\ parse_json "1 2" = None.
Proof. repeat split. Qed.

(** A number with a fraction or an exponent is a float. *)
Example parse_json_floats :
  parse_json "[1.50, -0.0, 2E5]"
  = Some (JList
            [JFloat (PyFinite {| negative := false; int_part := 1;
                                 tail := Fraction (d5, [d0]) None |});
             JFloat (PyFinite {| negative := true; int_part := 0;
                                 tail := Fraction (d0, []) None |});
             JFloat (PyFinite {| negative := false; int_part := 2;
                                 tail := Exponent {| exp_negative := false;
                                                     exp_digits := (d5, []) |} |})]).
Proof. reflexivity. Qed.

(** [NaN], [Infinity] and [-Infinity] are not JSON; the reader of Python's
    own texts takes them. *)
Example parse_json_constants :
  parse_json "NaN" = None /\ parse_json "[Infinity]" = None
  /\ parse_json "-Infinity" = None
  /\ parse_json_or_constants "[NaN, Infinity, -Infinity, -1]"
     = Some (JList [JFloat PyNaN; JFloat PyInf; JFloat PyNegInf; JInt (-1)]).
Proof. repeat split. Qed.

(** Python's [0.0 == False] and [-0.0 == False] hold, as [0 == False]
    does. *)
Example float_zero_equals_False :
  py_eq_False
    (Some (JFloat (PyFinite {| negative := true; int_part := 0;
                               tail := Fraction (d0, []) None |}))) = true
  /\ py_eq_False
       (Some (JFloat (PyFinite {| negative := false; int_part := 0;
                                  tail := Fraction (d5, []) None |}))) = false
  /\ py_eq_False (Some (JFloat PyNaN)) = false
  /\ py_eq_False (Some (JInt 0)) = true
  /\ py_eq_False (Some JNull) = false /\ py_eq_False None = false.
Proof. repeat split. Qed.

(** A surrogate pair of escapes denotes one code point, read as UTF-8. *)
Example parse_json_unicode_escape :
  parse_json (quoted (String backslash "u00e9" ++ String backslash "ud834"
                        ++ String backslash "udd1e"))
  = Some (JStr "é𝄞").
Proof. reflexivity. Qed.

(** [len] counts code points, not bytes. *)
Example py_len_counts_code_points : py_len "é𝄞a" = 3%Z.
Proof. reflexivity. Qed.

(** One call of [generate_story] against an upstream that answers 500: the
    text returned, the request sent and the levels of the records logged. *)
Example generate_story_500 :
  generate_story "hé" (upstream_replying response_500) world0
  = (Return
       ("{" ++ nl
          ++ "  " ++ quoted "error" ++ ": " ++ quoted "API returned error: 500" ++ "," ++ nl
          ++ "  " ++ quoted "error_details" ++ ": " ++ quoted "Internal Server Error" ++ "," ++ nl
          ++ "  " ++ quoted "success" ++ ": false" ++ nl
          ++ "}"),
     {| sent := [request_of tool_generate_story "hé"];
        log :=
          [ {| levelname := INFO;
               msg := [Text "generate_story called with prompt length: ";
                       Text "2"; Text " chars"];
               exc_info := false |};
            {| levelname := INFO;
               msg := [Text "Story generation started - this may take a few minutes..."];
               exc_info := false |};
            {| levelname := INFO;
               msg := [Text "Making API request to: ";
                       Text "http://103.42.50.33:8000/story"];
               exc_info := false |};
            {| levelname := INFO;
               msg := [Text "Request data: ";
                       Text ("{" ++ nl ++ "  " ++ quoted "question" ++ ": "
                               ++ quoted (String "h" (String backslash "u00e9"))
                               ++ nl ++ "}")];
               exc_info := false |};
            {| levelname := ERROR;
               msg := [Text "HTTP error: "; Text "500"; Text " - ";
                       Text "Internal Server Error"];
               exc_info := false |};
            {| levelname := ERROR;
               msg := [Text "Story generation failed: ";
                       Value (Some (JStr "API returned error: 500"))];
               exc_info := false |} ] |}).
Proof. reflexivity. Qed.

End Examples.

(** ** The encoder and the reader agree *)

Module Roundtrip.
Import Encoder Decoder.

Lemma append_assoc (a b c : string) : (a ++ b) ++ c = a ++ (b ++ c).
Proof. induction a as [|x a IH]; simpl; [reflexivity | now rewrite IH]. Qed.

Lemma skip_ws_spaces (n : nat) (s : string) :
  skip_ws (spaces n ++ s) = skip_ws s.
Proof. induction n as [|n IH]; simpl; auto. Qed.

Lemma skip_ws_newline_indent (indent : option nat) (level : nat) (s : string) :
  skip_ws (newline_indent indent level ++ s) = skip_ws s.
Proof.
  unfold newline_indent. destruct indent as [k|]; simpl; [|reflexivity].
  apply skip_ws_spaces.
Qed.

Lemma skip_ws_item_separator (indent : option nat) (level : nat) (s : string) :
  skip_ws (_item_separator indent ++ newline_indent indent level ++ s)
  = String ","%char (newline_indent indent level ++
                      match indent with None => String space s | Some _ => s end).
Proof.
  unfold _item_separator, newline_indent. destruct indent as [k|]; simpl; reflexivity.
Qed.

Lemma skip_ws_after_comma (indent : option nat) (level : nat) (s : string) :
  skip_ws (newline_indent indent level ++
             match indent with None => String space s | Some _ => s end)
  = skip_ws s.
Proof.
  destruct indent as [k|]; [apply skip_ws_newline_indent | reflexivity].
Qed.

(** A string literal written by [py_encode_basestring] is read back. *)
Lemma scan_string_escape (s rest : string) :
  scan_string (escape s ++ String dquote rest) = Some (s, rest).
Proof.
  induction s as [|c s IH]; [reflexivity|].
  destruct c as [[|] [|] [|] [|] [|] [|] [|] [|]];
    cbn; rewrite ?append_assoc; cbn; rewrite IH; reflexivity.
Qed.

Lemma ends_number_no_digit (rest : string) :
  ends_number rest = true -> no_digit rest.
Proof.
  destruct rest as [|c r]; [exact (fun _ => I)|]. simpl.
  destruct (is_digit c); [discriminate | reflexivity].
Qed.

Lemma span_digits_stop (s : string) : no_digit s -> span_digits s = ("", s).
Proof. destruct s as [|c r]; [reflexivity|]. simpl. now intros ->. Qed.

Lemma span_digit_list_stop (s : string) :
  no_digit s -> span_digit_list s = ([], s).
Proof. destruct s as [|c r]; [reflexivity|]. simpl. now intros ->. Qed.

Lemma span_digits_uint (u : uint) (s : string) :
  no_digit s ->
  span_digits (NilEmpty.string_of_uint u ++ s) = (NilEmpty.string_of_uint u, s).
Proof.
  intros H. induction u; simpl; try (rewrite IHu; reflexivity).
  now apply span_digits_stop.
Qed.

Lemma span_digit_list_text (ds : list digits) (s : string) :
  no_digit s -> span_digit_list (digits_text ds ++ s) = (ds, s).
Proof.
  intros H. induction ds as [|d ds IH]; [now apply span_digit_list_stop|].
  cbn [digits_text append span_digit_list]. rewrite IH. now destruct d.
Qed.

(** A normalised decimal numeral has no redundant leading zero. *)
Lemma well_formed_digits_unorm (u : uint) :
  u <> Nil -> unorm u = u ->
  well_formed_digits (NilEmpty.string_of_uint u) = true.
Proof.
  intros Hnil Hnorm. destruct u; try reflexivity; [congruence|].
  simpl. destruct u; try reflexivity; exfalso.
  all: rewrite unorm_D0 in Hnorm;
    match type of Hnorm with unorm ?d = _ =>
      assert (Hle : nb_digits (unorm d) <= nb_digits d)
        by (apply nb_digits_unorm; discriminate);
      rewrite Hnorm in Hle; simpl in Hle; lia
    end.
Qed.

Lemma to_uint_unorm (p : positive) : unorm (Pos.to_uint p) = Pos.to_uint p.
Proof.
  rewrite <- (DecimalPos.Unsigned.to_of (Pos.to_uint p)).
  rewrite DecimalPos.Unsigned.of_to. reflexivity.
Qed.

Lemma N_to_uint_unorm (n : N) : unorm (N.to_uint n) = N.to_uint n.
Proof. destruct n as [|p]; [reflexivity | apply to_uint_unorm]. Qed.

Lemma N_to_uint_nonnil (n : N) : N.to_uint n <> Nil.
Proof.
  destruct n as [|p]; [discriminate | apply DecimalPos.Unsigned.to_uint_nonnil].
Qed.

Lemma string_of_uint_nonnil (u : uint) :
  u <> Nil -> NilZero.string_of_uint u = NilEmpty.string_of_uint u.
Proof. destruct u; [congruence | reflexivity ..]. Qed.

(** The first character of a numeral is a digit. *)
Lemma string_of_uint_head (u : uint) :
  u <> Nil ->
  exists c r, NilEmpty.string_of_uint u = String c r
              /\ is_digit c = true /\ (code c =? 45)%N = false.
Proof.
  destruct u; [congruence | ..]; intros _; simpl; eexists _, _; repeat split.
Qed.

Lemma scan_number_digits (minus : bool) (u : uint) (s : string) :
  u <> Nil -> unorm u = u -> no_digit s ->
  scan_number ((if minus then "-" else "") ++ NilEmpty.string_of_uint u ++ s)
  = number_of minus u s.
Proof.
  intros Hnil Hnorm Hs. unfold scan_number, number_of.
  destruct minus; cbn [append].
  - change ((code "-"%char =? 45)%N) with true. cbv iota.
    rewrite span_digits_uint by assumption.
    rewrite well_formed_digits_unorm by assumption.
    now rewrite NilEmpty.usu.
  - destruct (string_of_uint_head u Hnil) as (c & r & E & _ & Hminus).
    assert (Ht : NilEmpty.string_of_uint u ++ s = String c (r ++ s))
      by (rewrite E; reflexivity).
    rewrite Ht, Hminus, <- Ht.
    rewrite span_digits_uint by assumption.
    rewrite well_formed_digits_unorm by assumption.
    now rewrite NilEmpty.usu.
Qed.

Lemma scan_fraction_none (rest : string) :
  ends_number rest = true -> scan_fraction rest = Some (None, rest).
Proof.
  destruct rest as [|c r]; [reflexivity|]. simpl.
  destruct (code c =? 46)%N; [|reflexivity].
  rewrite !orb_true_r. discriminate.
Qed.

Lemma scan_exponent_none (rest : string) :
  ends_number rest = true -> scan_exponent rest = Some (None, rest).
Proof.
  destruct rest as [|c r]; [reflexivity|]. simpl.
  destruct (code c =? 101)%N; [rewrite !orb_true_r; discriminate|].
  destruct (code c =? 69)%N; [rewrite !orb_true_r; discriminate|].
  reflexivity.
Qed.

Lemma scan_fraction_text (f : digit_seq) (s : string) :
  no_digit s ->
  scan_fraction ("." ++ digits_text (fst f :: snd f) ++ s) = Some (Some f, s).
Proof.
  intros Hs. destruct f as [d ds]. cbn [fst snd].
  change ("." ++ digits_text (d :: ds) ++ s)
    with (String "."%char (digits_text (d :: ds) ++ s)).
  cbn [scan_fraction]. change ((code "."%char =? 46)%N) with true. cbv iota.
  now rewrite span_digit_list_text.
Qed.

Lemma scan_exponent_text (e : exponent) (s : string) :
  no_digit s -> scan_exponent (exponent_text e ++ s) = Some (Some e, s).
Proof.
  intros Hs. destruct e as [minus [d ds]]. unfold exponent_text.
  cbn [exp_negative exp_digits fst snd].
  destruct minus; cbn [append scan_exponent];
    change ((code "e"%char =? 101)%N || (code "e"%char =? 69)%N)%bool with true;
    cbv iota.
  - change ((code "-"%char =? 45)%N) with true. cbv iota.
    change (String (char_of_digit d) (digits_text ds ++ s))
      with (digits_text (d :: ds) ++ s).
    now rewrite span_digit_list_text.
  - change ((code "+"%char =? 45)%N) with false.
    change ((code "+"%char =? 43)%N) with true. cbv iota.
    change (String (char_of_digit d) (digits_text ds ++ s))
      with (digits_text (d :: ds) ++ s).
    now rewrite span_digit_list_text.
Qed.

(** An integer written by [str] is read back. *)
Lemma scan_number_int (n : Z) (rest : string) :
  ends_number rest = true ->
  scan_number (py_str_int n ++ rest) = Some (JInt n, rest).
Proof.
  intros Hrest.
  assert (Hnum : forall minus u,
             number_of minus u rest
             = Some (JInt (if minus then (- Z.of_uint u)%Z else Z.of_uint u), rest)).
  { intros minus u. unfold number_of.
    now rewrite scan_fraction_none, scan_exponent_none. }
  pose proof (ends_number_no_digit rest Hrest) as Hno.
  unfold py_str_int. destruct n as [|p|p]; simpl.
  - exact (eq_trans
             (scan_number_digits false (D0 Nil) rest
                ltac:(discriminate) eq_refl Hno) (Hnum false (D0 Nil))).
  - rewrite string_of_uint_nonnil by apply DecimalPos.Unsigned.to_uint_nonnil.
    pose proof (scan_number_digits false (Pos.to_uint p) rest
                  (DecimalPos.Unsigned.to_uint_nonnil p) (to_uint_unorm p) Hno)
      as Hscan.
    cbn [append] in Hscan. rewrite Hscan, Hnum.
    unfold Z.of_uint. now rewrite DecimalPos.Unsigned.of_to.
  - rewrite string_of_uint_nonnil by apply DecimalPos.Unsigned.to_uint_nonnil.
    pose proof (scan_number_digits true (Pos.to_uint p) rest
                  (DecimalPos.Unsigned.to_uint_nonnil p) (to_uint_unorm p) Hno)
      as Hscan.
    cbn [append] in Hscan. rewrite Hscan, Hnum.
    unfold Z.of_uint. now rewrite DecimalPos.Unsigned.of_to.
Qed.

(** The text of an exponent, and of a fraction, does not start with a
    digit. *)
Lemma exponent_text_no_digit (e : exponent) (s : string) :
  no_digit (exponent_text e ++ s).
Proof. reflexivity. Qed.

(** A finite float written by [repr] is read back. *)
Lemma scan_number_float (l : float_literal) (rest : string) :
  ends_number rest = true ->
  scan_number (float_repr l ++ rest) = Some (JFloat (PyFinite l), rest).
Proof.
  intros Hrest. pose proof (ends_number_no_digit rest Hrest) as Hno.
  destruct l as [minus n t]. unfold float_repr.
  cbn [negative int_part tail]. rewrite !append_assoc.
  rewrite scan_number_digits;
    [| apply N_to_uint_nonnil | apply N_to_uint_unorm
     | destruct t as [f e|e]; reflexivity].
  unfold number_of. rewrite DecimalN.Unsigned.of_to.
  destruct t as [f [e|]|e].
  - rewrite !append_assoc, scan_fraction_text by apply exponent_text_no_digit.
    now rewrite scan_exponent_text.
  - rewrite !append_assoc, scan_fraction_text by exact Hno.
    now rewrite scan_exponent_none.
  - assert (Hf : scan_fraction (exponent_text e ++ rest)
                 = Some (None, exponent_text e ++ rest)) by reflexivity.
    rewrite Hf. now rewrite scan_exponent_text.
Qed.

(** The text of an integer starts with a minus sign or a digit. *)
Lemma py_str_int_head (n : Z) :
  exists c r, py_str_int n = String c r
              /\ ((code c =? 45)%N || is_digit c) = true.
Proof.
  unfold py_str_int. destruct n as [|p|p]; simpl.
  - eexists _, _; split; reflexivity.
  - rewrite string_of_uint_nonnil by apply DecimalPos.Unsigned.to_uint_nonnil.
    destruct (string_of_uint_head (Pos.to_uint p)) as (c & r & E & Hd & _);
      [apply DecimalPos.Unsigned.to_uint_nonnil|].
    exists c, r. split; [assumption|]. rewrite Hd. apply orb_true_r.
  - eexists _, _; split; reflexivity.
Qed.

(** So does the text of a finite float. *)
Lemma float_repr_head (l : float_literal) :
  exists c r, float_repr l = String c r
              /\ ((code c =? 45)%N || is_digit c) = true.
Proof.
  destruct l as [minus n t]. unfold float_repr. cbn [negative int_part tail].
  destruct minus; [eexists _, _; split; reflexivity|].
  destruct (string_of_uint_head (N.to_uint n) (N_to_uint_nonnil n))
    as (c & r & E & Hd & _).
  rewrite E. eexists c, _. split; [reflexivity|].
  rewrite Hd. apply orb_true_r.
Qed.

Lemma size_list (l : list json) : size (JList l) = S (items_size l).
Proof. simpl; f_equal; induction l as [|x xs IH]; simpl; congruence. Qed.

Lemma size_dict (d : list (string * json)) : size (JDict d) = S (members_size d).
Proof. simpl; f_equal; induction d as [|x xs IH]; simpl; congruence. Qed.

Section Values.
Variable allow_nan : bool.
Variable indent : option nat.

#[local] Abbreviation enc := (_iterencode false indent).

(** Names the loop of [_iterencode] that the goal applies to [l]. *)
Ltac name_loop l rhs :=
  match goal with
  | |- context [?F l] =>
      is_fix F;
      let E := fresh "E" in
      assert (E : forall x, F x = rhs x);
      [| rewrite E; clear E]
  end.

Lemma iterencode_list_cons (level : nat) (x : json) (xs : list json) :
  enc level (JList (x :: xs))
  = "[" ++ newline_indent indent (S level) ++ enc (S level) x
      ++ encode_items false indent level xs ++ newline_indent indent level ++ "]".
Proof.
  simpl. name_loop xs (encode_items false indent level); [|reflexivity].
  intros l. induction l as [|y ys IH]; simpl; [reflexivity|].
  now rewrite IH.
Qed.

Lemma iterencode_dict_cons (level : nat) (k : string) (v : json)
    (kvs : list (string * json)) :
  enc level (JDict ((k, v) :: kvs))
  = "{" ++ newline_indent indent (S level)
      ++ _encoder false k ++ _key_separator ++ enc (S level) v
      ++ encode_members false indent level kvs ++ newline_indent indent level ++ "}".
Proof.
  simpl. name_loop kvs (encode_members false indent level);
    [|now rewrite ?append_assoc].
  intros l. induction l as [|[k' v'] l IH]; simpl; [reflexivity|].
  now rewrite IH.
Qed.

Lemma number_head (c : ascii) :
  ((code c =? 45)%N || is_digit c) = true ->
  is_ws c = false /\ (code c =? 93)%N = false.
Proof.
  intros H. unfold is_ws, is_digit in *.
  assert (Hc : (code c = 45 \/ 48 <= code c <= 57)%N).
  { apply orb_true_iff in H. destruct H as [H|H].
    - left. now apply N.eqb_eq.
    - right. apply andb_true_iff in H. destruct H as [H1 H2].
      apply N.leb_le in H1, H2. lia. }
  split;
    repeat match goal with
           | |- context [(?a =? ?b)%N] => destruct (N.eqb_spec a b); try lia
           end; reflexivity.
Qed.

(** The text of a value starts with a character that is neither white space
    nor a closing bracket. *)
Lemma iterencode_head (level : nat) (v : json) :
  exists c r, enc level v = String c r
              /\ is_ws c = false /\ (code c =? 93)%N = false.
Proof.
  destruct v as [|[|]|n|[| | |l]|s|[|x xs]|[|[k v] kvs]];
    try (simpl; eexists _, _; repeat split; fail).
  - simpl. destruct (py_str_int_head n) as (c & r & E & H).
    exists c, r. split; [assumption|]. now apply number_head.
  - simpl. destruct (float_repr_head l) as (c & r & E & H).
    exists c, r. split; [assumption|]. now apply number_head.
Qed.

Lemma skip_ws_value (level : nat) (v : json) (s : string) :
  skip_ws (enc level v ++ s) = enc level v ++ s.
Proof.
  destruct (iterencode_head level v) as (c & r & E & Hws & _).
  rewrite E. simpl. now rewrite Hws.
Qed.

Lemma parse_items_encode (level : nat) (rest : string) (xs : list json) :
  forall (x : json) (fuel : nat),
    Forall (reads_back allow_nan indent) (x :: xs) ->
    items_size (x :: xs) <= fuel ->
    parse_items allow_nan fuel
      (enc (S level) x ++ encode_items false indent level xs
         ++ newline_indent indent level ++ String "]"%char rest)
    = Some (x :: xs, rest).
Proof.
  induction xs as [|y ys IH]; intros x fuel HP Hfuel;
    inversion HP as [|? ? Hx Hrest]; subst;
    (destruct fuel as [|fuel]; [simpl in Hfuel; lia|]);
    cbn [parse_items encode_items].
  - rewrite Hx; [| simpl in Hfuel; lia | destruct indent; reflexivity].
    cbn [append]. rewrite skip_ws_newline_indent. reflexivity.
  - rewrite Hx; [| simpl in Hfuel; lia | destruct indent; reflexivity].
    rewrite !append_assoc, skip_ws_item_separator.
    change ((code ","%char =? 93)%N) with false.
    change ((code ","%char =? 44)%N) with true. cbv iota.
    rewrite skip_ws_after_comma, skip_ws_value.
    rewrite IH; [reflexivity | assumption | simpl in *; lia].
Qed.

Lemma encoder_append (k s : string) :
  _encoder false k ++ s = String dquote (escape k ++ String dquote s).
Proof.
  unfold _encoder, py_encode_basestring. simpl. now rewrite append_assoc.
Qed.

(** One member: the key and the colon are read, then the value. *)
Lemma parse_members_step (level fuel : nat) (k : string) (v : json) (s : string) :
  parse_members allow_nan (S fuel)
    (_encoder false k ++ _key_separator ++ enc level v ++ s)
  = match parse_value allow_nan fuel (enc level v ++ s) with
    | None => None
    | Some (v', r3) =>
        match skip_ws r3 with
        | "" => None
        | String c' r4 =>
            if (code c' =? 125)%N then Some ([(k, v')], r4)
            else if (code c' =? 44)%N then
              match parse_members allow_nan fuel (skip_ws r4) with
              | Some (kvs, rest) => Some ((k, v') :: kvs, rest)
              | None => None
              end
            else None
        end
    end.
Proof.
  rewrite encoder_append. cbn [parse_members].
  change ((code dquote =? 34)%N) with true. cbv iota.
  rewrite scan_string_escape. unfold _key_separator.
  cbn [append skip_ws].
  change (is_ws ":"%char) with false. cbv iota.
  change ((code ":"%char =? 58)%N) with true. cbv iota.
  change (skip_ws (String " "%char (enc level v ++ s)))
    with (skip_ws (enc level v ++ s)).
  rewrite skip_ws_value. reflexivity.
Qed.

Lemma parse_members_encode (level : nat) (rest : string) (kvs : list (string * json)) :
  forall (k : string) (v : json) (fuel : nat),
    Forall (fun kv => reads_back allow_nan indent (snd kv)) ((k, v) :: kvs) ->
    members_size ((k, v) :: kvs) <= fuel ->
    parse_members allow_nan fuel
      (_encoder false k ++ _key_separator ++ enc (S level) v
         ++ encode_members false indent level kvs
         ++ newline_indent indent level ++ String "}"%char rest)
    = Some ((k, v) :: kvs, rest).
Proof.
  induction kvs as [|[k' v'] l IH]; intros k v fuel HP Hfuel;
    inversion HP as [|? ? Hv Hrest]; subst; simpl in Hv;
    (destruct fuel as [|fuel]; [simpl in Hfuel; lia|]);
    rewrite parse_members_step; cbn [encode_members].
  - rewrite Hv; [| simpl in Hfuel; lia | destruct indent; reflexivity].
    cbn [append]. rewrite skip_ws_newline_indent. reflexivity.
  - rewrite Hv; [| simpl in Hfuel; lia | destruct indent; reflexivity].
    rewrite !append_assoc, skip_ws_item_separator.
    change ((code ","%char =? 125)%N) with false.
    change ((code ","%char =? 44)%N) with true. cbv iota.
    rewrite skip_ws_after_comma.
    assert (Hkey : forall t, skip_ws (_encoder false k' ++ t) = _encoder false k' ++ t)
      by (intros t; rewrite encoder_append; reflexivity).
    rewrite Hkey.
    rewrite IH; [reflexivity | assumption | simpl in *; lia].
Qed.

(** Every value written by the encoder without [ensure_ascii] is read back
    by the reader, whatever the indent and the nesting level: a value none of
    whose floats is not-a-number or an infinity by the reader of JSON, any
    value by the reader that takes the three words for those. *)
Lemma parse_value_iterencode (v : json) :
  allow_nan || all_finite v = true -> reads_back allow_nan indent v.
Proof.
  induction v as [| b | n | f | s | l IHl | d IHd] using json_ind_nested;
    intros Hv level fuel rest Hfuel Hrest;
    (destruct fuel as [|fuel]; [simpl in Hfuel; lia|]).
  - reflexivity.
  - destruct b; reflexivity.
  - cbn [_iterencode].
    destruct (py_str_int_head n) as (c & r & E & H).
    pose proof (scan_number_int n rest Hrest) as Hscan.
    rewrite E in *. cbn [append parse_value] in *.
    rewrite H. now rewrite Hscan.
  - destruct f as [| | |l].
    + cbn [all_finite] in Hv. rewrite orb_false_r in Hv. subst allow_nan.
      reflexivity.
    + cbn [all_finite] in Hv. rewrite orb_false_r in Hv. subst allow_nan.
      reflexivity.
    + cbn [all_finite] in Hv. rewrite orb_false_r in Hv. subst allow_nan.
      reflexivity.
    + cbn [_iterencode floatstr].
      destruct (float_repr_head l) as (c & r & E & H).
      pose proof (scan_number_float l rest Hrest) as Hscan.
      rewrite E in *. cbn [append parse_value] in *.
      rewrite H. now rewrite Hscan.
  - cbn [_iterencode]. rewrite encoder_append. cbn [parse_value].
    change ((code dquote =? 45)%N || is_digit dquote) with false.
    change ((code dquote =? 34)%N) with true. cbv iota.
    now rewrite scan_string_escape.
  - destruct l as [|x xs]; [reflexivity|].
    assert (Hl : Forall (reads_back allow_nan indent) (x :: xs)).
    { apply Forall_forall. intros y Hy.
      apply (proj1 (Forall_forall _ _) IHl y Hy).
      destruct allow_nan; [reflexivity|]. cbn [orb all_finite] in Hv |- *.
      exact (proj1 (forallb_forall _ _) Hv y Hy). }
    rewrite iterencode_list_cons. cbn [append parse_value].
    change ((code "["%char =? 45)%N || is_digit "["%char) with false.
    change ((code "["%char =? 34)%N) with false.
    change ((code "["%char =? 91)%N) with true. cbv iota.
    rewrite !append_assoc. change ("]" ++ rest) with (String "]"%char rest).
    rewrite skip_ws_newline_indent, skip_ws_value.
    destruct (iterencode_head (S level) x) as (c & r & E & _ & Hc).
    remember (enc (S level) x ++ encode_items false indent level xs
                ++ newline_indent indent level ++ String "]"%char rest)
      as T eqn:ET.
    assert (HT : exists t, T = String c t)
      by (rewrite ET, E; eexists; reflexivity).
    destruct HT as [t HT]. rewrite HT, Hc, <- HT, ET.
    rewrite parse_items_encode;
      [reflexivity | assumption | rewrite size_list in Hfuel; lia].
  - destruct d as [|[k v] kvs]; [reflexivity|].
    assert (Hd : Forall (fun kv => reads_back allow_nan indent (snd kv))
                   ((k, v) :: kvs)).
    { apply Forall_forall. intros y Hy.
      apply (proj1 (Forall_forall _ _) IHd y Hy).
      destruct allow_nan; [reflexivity|]. cbn [orb all_finite] in Hv |- *.
      exact (proj1 (forallb_forall _ _) Hv y Hy). }
    rewrite iterencode_dict_cons. cbn [append parse_value].
    change ((code "{"%char =? 45)%N || is_digit "{"%char) with false.
    change ((code "{"%char =? 34)%N) with false.
    change ((code "{"%char =? 91)%N) with false.
    change ((code "{"%char =? 123)%N) with true. cbv iota.
    rewrite !append_assoc. change ("}" ++ rest) with (String "}"%char rest).
    rewrite skip_ws_newline_indent.
    remember (_encoder false k ++ _key_separator ++ enc (S level) v
                ++ encode_members false indent level kvs
                ++ newline_indent indent level ++ String "}"%char rest)
      as T eqn:ET.
    assert (HT : exists t, T = String dquote t)
      by (rewrite ET, encoder_append; eexists; reflexivity).
    destruct HT as [t HT]. rewrite HT. cbn [skip_ws].
    change (is_ws dquote) with false. cbv iota.
    change ((code dquote =? 125)%N) with false. cbv iota.
    rewrite <- HT, ET.
    rewrite parse_members_encode;
      [reflexivity | assumption | rewrite size_dict in Hfuel; lia].
Qed.

Lemma length_append (a b : string) :
  String.length (a ++ b) = String.length a + String.length b.
Proof. induction a as [|c a IH]; simpl; [reflexivity | now rewrite IH]. Qed.

Lemma append_nil_r (a : string) : a ++ "" = a.
Proof. induction a as [|c a IH]; simpl; [reflexivity | now rewrite IH]. Qed.

Lemma length_item_separator : 1 <= String.length (_item_separator indent).
Proof. unfold _item_separator. destruct indent; simpl; lia. Qed.

(** The text of a value is at least as long as the fuel reading it needs. *)
Lemma size_le_length (v : json) :
  forall level, size v <= String.length (enc level v).
Proof.
  induction v as [| b | n | f | s | l IHl | d IHd] using json_ind_nested;
    intros level.
  - simpl. lia.
  - destruct b; simpl; lia.
  - simpl. destruct (py_str_int_head n) as (c & r & E & _).
    rewrite E. simpl. lia.
  - destruct f as [| | |l]; try (simpl; lia).
    simpl. destruct (float_repr_head l) as (c & r & E & _).
    rewrite E. simpl. lia.
  - simpl. lia.
  - destruct l as [|x xs]; [simpl; lia|].
    rewrite iterencode_list_cons, size_list. inversion IHl as [|? ? Hx Hxs]; subst.
    assert (Hitems : items_size xs
                     <= String.length (encode_items false indent level xs)).
    { clear Hx IHl. induction xs as [|y ys IH]; simpl; [lia|].
      inversion Hxs as [|? ? Hy Hys]; subst.
      rewrite !length_append. specialize (Hy (S level)). specialize (IH Hys).
      pose proof length_item_separator. lia. }
    specialize (Hx (S level)). simpl. rewrite !length_append. simpl. lia.
  - destruct d as [|[k v] kvs]; [simpl; lia|].
    rewrite iterencode_dict_cons, size_dict. inversion IHd as [|? ? Hv Hkvs]; subst.
    assert (Hmembers : members_size kvs
                       <= String.length (encode_members false indent level kvs)).
    { clear Hv IHd. induction kvs as [|[k' v'] l IH]; simpl; [lia|].
      inversion Hkvs as [|? ? Hy Hys]; subst. simpl in Hy.
      specialize (Hy (S level)). specialize (IH Hys).
      repeat (progress (cbn [String.length]; rewrite ?length_append)).
      pose proof length_item_separator. lia. }
    specialize (Hv (S level)). simpl in Hv. simpl.
    repeat (progress (cbn [String.length]; rewrite ?length_append)). lia.
Qed.
End Values.

Lemma parse_document_dumps (allow_nan : bool) (indent : option nat) (v : json) :
  allow_nan || all_finite v = true ->
  parse_document allow_nan (json_dumps false indent v) = Some v.
Proof.
  intros Hv. unfold parse_document, json_dumps.
  rewrite <- (append_nil_r (_iterencode false indent 0 v)) at 2.
  rewrite skip_ws_value, parse_value_iterencode;
    [reflexivity | assumption | | reflexivity].
  pose proof (size_le_length indent v 0). lia.
Qed.

(** [json.dumps(v, ensure_ascii=False, indent=...)] is a JSON document that
    denotes [v], when no float of [v] is not-a-number or an infinity. *)
Lemma parse_json_dumps (indent : option nat) (v : json) :
  all_finite v = true -> parse_json (json_dumps false indent v) = Some v.
Proof. intros Hv. now apply parse_document_dumps. Qed.

(** For every [v] it is a text the reader of Python's own texts reads back
    as [v]. *)
Lemma parse_json_or_constants_dumps (indent : option nat) (v : json) :
  parse_json_or_constants (json_dumps false indent v) = Some v.
Proof. now apply parse_document_dumps. Qed.
End Roundtrip.

(** ** Running the tools *)

(** Unfolds the tools and the operations of [Py], leaving the calls of the
    upstream, the encoder and the reader in place. *)
Ltac run :=
  cbv beta iota zeta delta
    [call_tool call_tool_with generate_story generate_episodic_beats_from_file
     ask_vector_db generate_story_with generate_episodic_beats_from_file_with
     ask_vector_db_with tool_without_check _api_post with_AsyncClient
     client_post raise_for_status response_json logger_info logger_error
     logger_error_exc_info logger_log try_except bind ret raise
     result_of sent_by logged_by request_of endpoint_of field_of
     called_message started_message success_message unexpected_message
     unexpected_error exn_str exn_name fst snd sent log].

(** [call_tool] runs the three functions of [server.py]. *)
Lemma call_tool_dispatch :
  call_tool tool_generate_story = generate_story
  /\ call_tool tool_generate_episodic_beats_from_file
     = generate_episodic_beats_from_file
  /\ call_tool tool_ask_vector_db = ask_vector_db.
Proof. repeat split. Qed.

(** The classification of [_api_post] is exhaustive: it returns a value,
    whatever the upstream does, and never raises. *)
Lemma api_post_returns (client : AsyncClient) (endpoint : string) (data : json)
    (u : Upstream) (w : World) :
  exists v, result_of (_api_post client endpoint data) u w = Return v.
Proof.
  run.
  match goal with
  | |- context [send u ?q] => destruct (send u q) as [[ph m|m r|cls m]|r]
  end; run; try (eexists; reflexivity).
  destruct (is_success r); run; try (eexists; reflexivity).
  destruct (json_body r) as [v|cls m]; eexists; reflexivity.
Qed.

Section Gateway.
Variables (t : tool) (argument : string) (u : Upstream) (w : World).

(** A 2xx response with a JSON body: the tool returns the serialised body. *)
Lemma run_success (r : Response) (v : json) :
  send u (request_of t argument) = inr r ->
  is_success r = true ->
  json_body r = JsonValue v ->
  result_of (call_tool t argument) u w = Return (json_dumps false (Some 2%nat) v).
Proof.
  intros Hsend Hok Hbody. revert Hsend.
  destruct t; run; intros Hsend; rewrite Hsend; run; rewrite Hok; run;
    rewrite Hbody; run; destruct (declares_failure v); reflexivity.
Qed.

(** The same, with the records it logs. *)
Lemma run_success_log (r : Response) (v : json) :
  send u (request_of t argument) = inr r ->
  is_success r = true ->
  json_body r = JsonValue v ->
  declares_failure v = false ->
  logged_by (call_tool t argument) u w
  = (log w ++
       [ {| levelname := INFO; msg := called_message t argument; exc_info := false |};
         {| levelname := INFO; msg := started_message t; exc_info := false |};
         {| levelname := INFO;
            msg := [Text "Making API request to: "; Text (API_BASE ++ endpoint_of t)];
            exc_info := false |};
         {| levelname := INFO;
            msg := [Text "Request data: ";
                    Text (json_dumps true (Some 2%nat)
                            (JDict [(field_of t, JStr argument)]))];
            exc_info := false |};
         {| levelname := INFO;
            msg := [Text "API request successful - Status: ";
                    Text (py_str_int (status_code r))];
            exc_info := false |};
         {| levelname := INFO; msg := success_message t; exc_info := false |} ])%list.
Proof.
  intros Hsend Hok Hbody Hno. revert Hsend.
  destruct t; run; intros Hsend; rewrite Hsend; run; rewrite Hok; run;
    rewrite Hbody; run; rewrite Hno; run; rewrite <- !app_assoc; reflexivity.
Qed.

(** A timeout in any phase: the timeout document. *)
Lemma run_timeout (phase : timeout_phase) (m : string) :
  send u (request_of t argument) = inl (TimeoutException phase m) ->
  result_of (call_tool t argument) u w
  = Return (json_dumps false (Some 2%nat)
              (JDict
                 [("error", JStr "Request timed out. The API is taking longer than expected. Please try again.");
                  ("error_type", JStr "timeout");
                  ("success", JBool false)])).
Proof.
  destruct t; run; intros Hsend; rewrite Hsend; reflexivity.
Qed.

(** A response outside 2xx: the status document. *)
Lemma run_status (r : Response) :
  send u (request_of t argument) = inr r ->
  is_success r = false ->
  result_of (call_tool t argument) u w
  = Return (json_dumps false (Some 2%nat)
              (JDict
                 [("error", JStr ("API returned error: " ++ py_str_int (status_code r)));
                  ("error_details", JStr (text r));
                  ("success", JBool false)])).
Proof.
  intros Hsend Hok. revert Hsend.
  destruct t; run; intros Hsend; rewrite Hsend; run; rewrite Hok; reflexivity.
Qed.

(** Any other exception of the call: the request-failed document. *)
Lemma run_other (cls m : string) :
  send u (request_of t argument) = inl (OtherException cls m) ->
  result_of (call_tool t argument) u w
  = Return (json_dumps false (Some 2%nat)
              (JDict
                 [("error", JStr ("Request failed: " ++ m));
                  ("error_type", JStr cls);
                  ("success", JBool false)])).
Proof.
  destruct t; run; intros Hsend; rewrite Hsend; reflexivity.
Qed.

(** A 2xx response whose body [r.json()] cannot decode: the same document. *)
Lemma run_malformed (r : Response) (cls m : string) :
  send u (request_of t argument) = inr r ->
  is_success r = true ->
  json_body r = JsonFailure cls m ->
  result_of (call_tool t argument) u w
  = Return (json_dumps false (Some 2%nat)
              (JDict
                 [("error", JStr ("Request failed: " ++ m));
                  ("error_type", JStr cls);
                  ("success", JBool false)])).
Proof.
  intros Hsend Hok Hbody. revert Hsend.
  destruct t; run; intros Hsend; rewrite Hsend; run; rewrite Hok; run;
    rewrite Hbody; reflexivity.
Qed.

(** Whatever the upstream does, the call sends its one request. *)
Lemma run_sent :
  sent_by (call_tool t argument) u w = (sent w ++ [request_of t argument])%list.
Proof.
  destruct t; run;
    match goal with
    | |- context [send u ?q] => destruct (send u q) as [[ph m|m r|cls m]|r]
    end; run; try reflexivity;
    destruct (is_success r); run; try reflexivity;
    destruct (json_body r) as [v|cls m]; run; try reflexivity;
    destruct (declares_failure v); reflexivity.
Qed.
End Gateway.

(** ** Substrings *)

Lemma startswith_append (sub q : string) : startswith (sub ++ q) sub = true.
Proof.
  induction sub as [|c sub IH]; [now destruct q|].
  simpl. now rewrite Ascii.eqb_refl, IH.
Qed.

Lemma contains_append (p sub q : string) : contains (p ++ sub ++ q) sub = true.
Proof.
  induction p as [|c p IH].
  - change ("" ++ sub ++ q) with (sub ++ q).
    pose proof (startswith_append sub q) as H.
    destruct (sub ++ q); cbn [contains]; now rewrite H.
  - simpl. rewrite IH. apply orb_true_r.
Qed.

Lemma contains_suffix (p sub : string) : contains (p ++ sub) sub = true.
Proof.
  rewrite <- (Roundtrip.append_nil_r sub) at 1. apply contains_append.
Qed.

(** ** The claims *)

(** C1, as stated, fails: the body [[1e400]] is JSON, [r.json()] reads its
    number as [float('inf')], and the tool returns a text with the word
    [Infinity], which is not JSON. *)
Lemma C1_counterexample :
  send (upstream_replying response_overflow)
    (request_of tool_generate_story "Tell me a story")
  = inr response_overflow
  /\ is_success response_overflow = true
  /\ (exists body, parse_json (text response_overflow) = Some body)
  /\ json_body response_overflow = JsonValue (JList [JFloat PyInf])
  /\ result_of (call_tool tool_generate_story "Tell me a story")
       (upstream_replying response_overflow) world0
     = Return ("[" ++ nl ++ "  Infinity" ++ nl ++ "]")
  /\ parse_json ("[" ++ nl ++ "  Infinity" ++ nl ++ "]") = None.
Proof. repeat split. eexists. reflexivity. Qed.

(** C1, amended. When the upstream answers the request of a tool with a 2xx
    status and a body [r.json()] decodes to [v], the tool returns
    [json.dumps(v)]: the body is not inspected, so one declaring
    [success=false] is passed on unchanged.  The text is read back as [v] by
    the reader of Python's own texts, and when no float of [v] is
    not-a-number or an infinity it is JSON and parses to exactly [v]. *)
Theorem C1_success_returns_upstream_body
    (t : tool) (argument : string) (u : Upstream) (w : World)
    (r : Response) (v : json) :
  send u (request_of t argument) = inr r ->
  is_success r = true ->
  json_body r = JsonValue v ->
  exists out,
    result_of (call_tool t argument) u w = Return out
    /\ out = json_dumps false (Some 2%nat) v
    /\ parse_json_or_constants out = Some v
    /\ (all_finite v = true -> parse_json out = Some v).
Proof.
  intros Hsend Hok Hbody. eexists. split; [|split; [reflexivity|split]].
  - exact (run_success t argument u w r v Hsend Hok Hbody).
  - apply Roundtrip.parse_json_or_constants_dumps.
  - now apply Roundtrip.parse_json_dumps.
Qed.

Lemma C1_witness :
  (send (upstream_replying response_declared_failure)
     (request_of tool_generate_story "Tell me a story")
   = inr response_declared_failure
   /\ is_success response_declared_failure = true
   /\ json_body response_declared_failure
      = JsonValue (JDict [("success", JBool false); ("detail", JStr "no story")])
   /\ all_finite (JDict [("success", JBool false); ("detail", JStr "no story")])
      = true)
  /\ exists out,
    result_of (call_tool tool_generate_story "Tell me a story")
      (upstream_replying response_declared_failure) world0 = Return out
    /\ out = json_dumps false (Some 2%nat)
               (JDict [("success", JBool false); ("detail", JStr "no story")])
    /\ parse_json out
       = Some (JDict [("success", JBool false); ("detail", JStr "no story")]).
Proof.
  split; [repeat split|].
  destruct (C1_success_returns_upstream_body tool_generate_story "Tell me a story"
              (upstream_replying response_declared_failure) world0
              response_declared_failure
              (JDict [("success", JBool false); ("detail", JStr "no story")])
              eq_refl eq_refl eq_refl) as (out & Hrun & Hout & _ & Hjson).
  exists out. split; [exact Hrun|]. split; [exact Hout|]. exact (Hjson eq_refl).
Defined.

(** C2. When the call of the upstream times out, in whichever phase, the tool
    returns a JSON document with [success=false], [error_type] equal to
    ["timeout"] and the fixed timeout message as [error]. *)
Theorem C2_timeout_document
    (t : tool) (argument : string) (u : Upstream) (w : World)
    (phase : timeout_phase) (m : string) :
  send u (request_of t argument) = inl (TimeoutException phase m) ->
  exists out,
    result_of (call_tool t argument) u w = Return out
    /\ parse_json out
       = Some (JDict
                 [("error", JStr "Request timed out. The API is taking longer than expected. Please try again.");
                  ("error_type", JStr "timeout");
                  ("success", JBool false)]).
Proof.
  intros Hsend. eexists. split.
  - exact (run_timeout t argument u w phase m Hsend).
  - now apply Roundtrip.parse_json_dumps.
Qed.

Lemma C2_witness :
  send (upstream_raising (TimeoutException ReadTimeout ""))
    (request_of tool_ask_vector_db "What happened to Zoya?")
  = inl (TimeoutException ReadTimeout "")
  /\ exists out,
    result_of (call_tool tool_ask_vector_db "What happened to Zoya?")
      (upstream_raising (TimeoutException ReadTimeout "")) world0 = Return out
    /\ parse_json out
       = Some (JDict
                 [("error", JStr "Request timed out. The API is taking longer than expected. Please try again.");
                  ("error_type", JStr "timeout");
                  ("success", JBool false)]).
Proof.
  split; [reflexivity|].
  apply (C2_timeout_document tool_ask_vector_db "What happened to Zoya?"
           (upstream_raising (TimeoutException ReadTimeout "")) world0
           ReadTimeout ""); reflexivity.
Defined.

(** C3. When the upstream answers with a status outside 2xx, the tool returns
    a JSON document with [success=false], an [error] that contains the status
    code in decimal, and [error_details] equal to the text of the response. *)
Theorem C3_status_document
    (t : tool) (argument : string) (u : Upstream) (w : World) (r : Response) :
  send u (request_of t argument) = inr r ->
  is_success r = false ->
  exists out message,
    result_of (call_tool t argument) u w = Return out
    /\ parse_json out
       = Some (JDict
                 [("error", JStr message);
                  ("error_details", JStr (text r));
                  ("success", JBool false)])
    /\ message = "API returned error: " ++ py_str_int (status_code r)
    /\ contains message (py_str_int (status_code r)) = true.
Proof.
  intros Hsend Hok. eexists _, _. split; [|split; [|split; [reflexivity|]]].
  - exact (run_status t argument u w r Hsend Hok).
  - now apply Roundtrip.parse_json_dumps.
  - apply contains_suffix.
Qed.

Lemma C3_witness :
  (send (upstream_replying response_500)
     (request_of tool_generate_story "Tell me a story") = inr response_500
   /\ is_success response_500 = false)
  /\ exists out message,
    result_of (call_tool tool_generate_story "Tell me a story")
      (upstream_replying response_500) world0 = Return out
    /\ parse_json out
       = Some (JDict
                 [("error", JStr message);
                  ("error_details", JStr "Internal Server Error");
                  ("success", JBool false)])
    /\ message = "API returned error: 500"
    /\ contains message "500" = true.
Proof.
  split; [split; reflexivity|].
  apply (C3_status_document tool_generate_story "Tell me a story"
           (upstream_replying response_500) world0 response_500); reflexivity.
Defined.

(** C4. When the call fails in any other way (an exception of [client.post]
    that is neither a timeout nor a status error, or a body [r.json()] cannot
    decode), the tool returns a JSON document with [success=false], an [error]
    that contains [str(e)], and [error_type] equal to the name of the class of
    the exception, which is not empty. *)
Theorem C4_other_failure_document
    (t : tool) (argument : string) (u : Upstream) (w : World) (cls m : string) :
  (send u (request_of t argument) = inl (OtherException cls m)
   \/ exists r, send u (request_of t argument) = inr r
                /\ is_success r = true
                /\ json_body r = JsonFailure cls m) ->
  cls <> "" ->
  exists out message kind,
    result_of (call_tool t argument) u w = Return out
    /\ parse_json out
       = Some (JDict
                 [("error", JStr message);
                  ("error_type", JStr kind);
                  ("success", JBool false)])
    /\ contains message m = true
    /\ kind = cls
    /\ kind <> "".
Proof.
  intros Hfail Hcls. exists (json_dumps false (Some 2%nat)
    (JDict [("error", JStr ("Request failed: " ++ m));
            ("error_type", JStr cls); ("success", JBool false)])).
  exists ("Request failed: " ++ m), cls.
  split; [|split; [|split; [|split]]].
  - destruct Hfail as [Hsend|(r & Hsend & Hok & Hbody)].
    + exact (run_other t argument u w cls m Hsend).
    + exact (run_malformed t argument u w r cls m Hsend Hok Hbody).
  - now apply Roundtrip.parse_json_dumps.
  - apply contains_suffix.
  - reflexivity.
  - assumption.
Qed.

Lemma C4_witness :
  (send (upstream_raising (OtherException "ConnectError" "All connection attempts failed"))
     (request_of tool_generate_episodic_beats_from_file "./x.txt")
   = inl (OtherException "ConnectError" "All connection attempts failed")
   /\ "ConnectError" <> "")
  /\ exists out message kind,
    result_of (call_tool tool_generate_episodic_beats_from_file "./x.txt")
      (upstream_raising (OtherException "ConnectError" "All connection attempts failed"))
      world0 = Return out
    /\ parse_json out
       = Some (JDict
                 [("error", JStr message);
                  ("error_type", JStr kind);
                  ("success", JBool false)])
    /\ contains message "All connection attempts failed" = true
    /\ kind = "ConnectError"
    /\ kind <> "".
Proof.
  split; [split; [reflexivity | discriminate]|].
  apply (C4_other_failure_document tool_generate_episodic_beats_from_file "./x.txt"
           (upstream_raising (OtherException "ConnectError" "All connection attempts failed"))
           world0 "ConnectError" "All connection attempts failed").
  - left. reflexivity.
  - discriminate.
Defined.

(** Any gateway: the tool returns a text, either what the gateway returned,
    serialised, or the document of its own handler. *)
Lemma run_with_gateway
    (g : AsyncClient -> string -> json -> Py json)
    (t : tool) (argument : string) (u : Upstream) (w : World) :
  exists out, result_of (call_tool_with g t argument) u w = Return out.
Proof.
  destruct t; run;
    match goal with
    | |- context [g ?c ?e ?d u ?w'] => destruct (g c e d u w') as [[data|e0] w'']
    end; run;
    try (destruct (declares_failure data));
    eexists; reflexivity.
Qed.

(** What a tool serialises: the decoded body of a 2xx response, or one of
    the documents of the gateway, none of which holds a float. *)
Lemma run_value (t : tool) (argument : string) (u : Upstream) (w : World) :
  exists v,
    result_of (call_tool t argument) u w = Return (json_dumps false (Some 2%nat) v)
    /\ (all_finite v = false ->
        exists r, send u (request_of t argument) = inr r
                  /\ is_success r = true
                  /\ json_body r = JsonValue v).
Proof.
  destruct (send u (request_of t argument)) as [[ph m|m r|cls m]|r] eqn:Hsend.
  - eexists. split; [exact (run_timeout t argument u w ph m Hsend)|].
    discriminate.
  - eexists. split.
    + revert Hsend. destruct t; run; intros Hsend; rewrite Hsend; reflexivity.
    + discriminate.
  - eexists. split; [exact (run_other t argument u w cls m Hsend)|].
    discriminate.
  - destruct (is_success r) eqn:Hok.
    + destruct (json_body r) as [v|cls m] eqn:Hbody.
      * exists v. split; [exact (run_success t argument u w r v Hsend Hok Hbody)|].
        intros _. exists r. repeat split; assumption.
      * eexists. split;
          [exact (run_malformed t argument u w r cls m Hsend Hok Hbody)|].
        discriminate.
    + eexists. split; [exact (run_status t argument u w r Hsend Hok)|].
      discriminate.
Qed.

(** C5, as stated, fails: for the JSON body [{"score": 1e400}] of a 2xx
    response the tool returns a text with the word [Infinity], which is not
    JSON. *)
Lemma C5_counterexample :
  send (upstream_replying response_overflow_field)
    (request_of tool_ask_vector_db "How close is the match?")
  = inr response_overflow_field
  /\ is_success response_overflow_field = true
  /\ (exists body, parse_json (text response_overflow_field) = Some body)
  /\ result_of (call_tool tool_ask_vector_db "How close is the match?")
       (upstream_replying response_overflow_field) world0
     = Return ("{" ++ nl ++ "  " ++ quoted "score" ++ ": Infinity" ++ nl ++ "}")
  /\ parse_json ("{" ++ nl ++ "  " ++ quoted "score" ++ ": Infinity" ++ nl ++ "}")
     = None.
Proof. repeat split. eexists. reflexivity. Qed.

(** C5, amended. Whatever the argument and whatever the upstream does, each
    tool returns a text and never raises, also with any function in the place
    of the gateway.  The text is a JSON document unless the upstream answered
    2xx with a body whose decoded value holds a float that is not-a-number or
    an infinity; and when the function in the place of the gateway raises [e]
    the tool's own handler returns the error document built from [e], with
    [success=false]. *)
Theorem C5_tools_never_raise :
  (forall (g : AsyncClient -> string -> json -> Py json)
      (t : tool) (argument : string) (u : Upstream) (w : World),
      exists out, result_of (call_tool_with g t argument) u w = Return out)
  /\ (forall (t : tool) (argument : string) (u : Upstream) (w : World),
         exists out,
           result_of (call_tool t argument) u w = Return out
           /\ ((exists v, parse_json out = Some v)
               \/ (exists r v,
                      send u (request_of t argument) = inr r
                      /\ is_success r = true
                      /\ json_body r = JsonValue v
                      /\ all_finite v = false
                      /\ out = json_dumps false (Some 2%nat) v)))
  /\ (forall (e : pyexn) (effects : World -> World)
        (t : tool) (argument : string) (u : Upstream) (w : World),
         exists out,
           result_of
             (call_tool_with (fun _ _ _ _ w' => (Raise e, effects w')) t argument)
             u w = Return out
           /\ parse_json out
              = Some (JDict
                        [("error", JStr ("Unexpected error: " ++ exn_str e));
                         ("error_type", JStr (exn_name e));
                         ("success", JBool false)])).
Proof.
  split; [|split].
  - apply run_with_gateway.
  - intros t argument u w.
    destruct (run_value t argument u w) as (v & Hrun & Hv).
    eexists. split; [exact Hrun|].
    destruct (all_finite v) eqn:Hfinite.
    + left. exists v. now apply Roundtrip.parse_json_dumps.
    + right. destruct (Hv eq_refl) as (r & Hsend & Hok & Hbody).
      exists r, v. repeat split; assumption.
  - intros e effects t argument u w.
    exists (json_dumps false None (unexpected_error e)). split.
    + destruct t; reflexivity.
    + now apply Roundtrip.parse_json_dumps.
Qed.

(** C6. Each tool sends exactly one request, whatever the upstream does: a
    POST to the base URL followed by its endpoint, whose body is the one-field
    object holding the argument. *)
Theorem C6_one_request_per_call (s : string) (u : Upstream) (w : World) :
  sent_by (generate_story s) u w
  = (sent w ++
       [ {| method := POST;
            url := API_BASE ++ "/story";
            body := JDict [("question", JStr s)];
            headers := [("Content-Type", "application/json")];
            timeout := {| connect := 600; read := 600; write := 600; pool := 600 |} |} ])%list
  /\ sent_by (generate_episodic_beats_from_file s) u w
     = (sent w ++
          [ {| method := POST;
               url := API_BASE ++ "/episodic_beats_from_file";
               body := JDict [("file_path", JStr s)];
               headers := [("Content-Type", "application/json")];
               timeout := {| connect := 600; read := 600; write := 600; pool := 600 |} |} ])%list
  /\ sent_by (ask_vector_db s) u w
     = (sent w ++
          [ {| method := POST;
               url := API_BASE ++ "/ask";
               body := JDict [("question", JStr s)];
               headers := [("Content-Type", "application/json")];
               timeout := {| connect := 600; read := 600; write := 600; pool := 600 |} |} ])%list.
Proof.
  split; [|split].
  - exact (run_sent tool_generate_story s u w).
  - exact (run_sent tool_generate_episodic_beats_from_file s u w).
  - exact (run_sent tool_ask_vector_db s u w).
Qed.

(** C7, as stated, fails: for a response with status 500 the returned
    document has [success=false] and an [error] message, but no [error_type]
    field; its third field is [error_details]. *)
Lemma C7_counterexample :
  exists out d,
    result_of (call_tool tool_generate_story "Tell me a story")
      (upstream_replying response_500) world0 = Return out
    /\ classify (upstream_replying response_500)
         (request_of tool_generate_story "Tell me a story")
       = Some http_status_error
    /\ parse_json out = Some (JDict d)
    /\ dict_get d "success" = Some (JBool false)
    /\ dict_get d "error" = Some (JStr "API returned error: 500")
    /\ dict_get d "error_details" = Some (JStr "Internal Server Error")
    /\ dict_get d "error_type" = None.
Proof.
  eexists _, _. split; [|split; [|split]].
  - exact (run_status tool_generate_story "Tell me a story"
             (upstream_replying response_500) world0 response_500
             eq_refl eq_refl).
  - reflexivity.
  - now apply Roundtrip.parse_json_dumps.
  - repeat split.
Qed.

(** C7, amended. Every classified failure is returned as a JSON document of
    three fields, with [success=false] and a message in [error], plus one
    more field.  The documents of a timeout and of a transport failure carry
    the kind in [error_type] (the word [timeout]; the name of the class of
    the exception) and have no [error_details]; the document of an HTTP
    status failure carries the text of the response, its raw body, in
    [error_details] and has no [error_type]. *)
Theorem C7_failure_documents
    (t : tool) (argument : string) (u : Upstream) (w : World) (k : failure) :
  classify u (request_of t argument) = Some k ->
  exists out d message,
    result_of (call_tool t argument) u w = Return out
    /\ parse_json out = Some (JDict d)
    /\ dict_get d "success" = Some (JBool false)
    /\ dict_get d "error" = Some (JStr message)
    /\ match k with
       | timeout_failure =>
           map fst d = ["error"; "error_type"; "success"]
           /\ dict_get d "error_details" = None
           /\ dict_get d "error_type" = Some (JStr "timeout")
           /\ message = "Request timed out. The API is taking longer than expected. Please try again."
       | http_status_error =>
           map fst d = ["error"; "error_details"; "success"]
           /\ dict_get d "error_type" = None
           /\ exists r,
                (send u (request_of t argument) = inr r
                 \/ exists m, send u (request_of t argument)
                              = inl (HTTPStatusError m r))
                /\ dict_get d "error_details" = Some (JStr (text r))
                /\ message = "API returned error: " ++ py_str_int (status_code r)
       | transport_error =>
           map fst d = ["error"; "error_type"; "success"]
           /\ dict_get d "error_details" = None
           /\ exists cls m,
                (send u (request_of t argument) = inl (OtherException cls m)
                 \/ exists r, send u (request_of t argument) = inr r
                              /\ json_body r = JsonFailure cls m)
                /\ dict_get d "error_type" = Some (JStr cls)
                /\ message = "Request failed: " ++ m
       end.
Proof.
  unfold classify. intros Hk.
  destruct (send u (request_of t argument)) as [[ph m|m r|cls m]|r] eqn:Hsend.
  - injection Hk as <-. eexists _, _, _. split; [|split].
    + exact (run_timeout t argument u w ph m Hsend).
    + now apply Roundtrip.parse_json_dumps.
    + repeat split.
  - injection Hk as <-. eexists _, _, _. split; [|split].
    + revert Hsend. destruct t; run; intros Hsend; rewrite Hsend; reflexivity.
    + now apply Roundtrip.parse_json_dumps.
    + repeat split. exists r. split; [right; now exists m|]. split; reflexivity.
  - injection Hk as <-. eexists _, _, _. split; [|split].
    + exact (run_other t argument u w cls m Hsend).
    + now apply Roundtrip.parse_json_dumps.
    + repeat split. exists cls, m. split; [now left|]. split; reflexivity.
  - destruct (is_success r) eqn:Hok.
    + destruct (json_body r) as [v|cls m] eqn:Hbody; [discriminate|].
      injection Hk as <-. eexists _, _, _. split; [|split].
      * exact (run_malformed t argument u w r cls m Hsend Hok Hbody).
      * now apply Roundtrip.parse_json_dumps.
      * repeat split. exists cls, m. split; [right; now exists r|].
        split; reflexivity.
    + injection Hk as <-. eexists _, _, _. split; [|split].
      * exact (run_status t argument u w r Hsend Hok).
      * now apply Roundtrip.parse_json_dumps.
      * repeat split. exists r. split; [now left|]. split; reflexivity.
Qed.

Lemma C7_witness :
  classify (upstream_replying response_500)
    (request_of tool_generate_story "Tell me a story")
  = Some http_status_error
  /\ exists out d message,
    result_of (call_tool tool_generate_story "Tell me a story")
      (upstream_replying response_500) world0 = Return out
    /\ parse_json out = Some (JDict d)
    /\ dict_get d "success" = Some (JBool false)
    /\ dict_get d "error" = Some (JStr message)
    /\ map fst d = ["error"; "error_details"; "success"]
    /\ dict_get d "error_type" = None
    /\ exists r,
         (send (upstream_replying response_500)
            (request_of tool_generate_story "Tell me a story") = inr r
          \/ exists m, send (upstream_replying response_500)
                         (request_of tool_generate_story "Tell me a story")
                       = inl (HTTPStatusError m r))
         /\ dict_get d "error_details" = Some (JStr (text r))
         /\ message = "API returned error: " ++ py_str_int (status_code r).
Proof.
  split; [reflexivity|].
  apply (C7_failure_documents tool_generate_story "Tell me a story"
           (upstream_replying response_500) world0 http_status_error).
  reflexivity.
Defined.

(** C8. Every request the gateway sends carries a timeout of 600 seconds for
    each of the four phases: connect, read, write and pool. *)
Theorem C8_timeout_is_600_per_phase :
  (forall (client : AsyncClient) (endpoint : string) (data : json)
      (u : Upstream) (w : World),
      exists q,
        sent_by (_api_post client endpoint data) u w = (sent w ++ [q])%list
        /\ url q = API_BASE ++ endpoint
        /\ connect (timeout q) = 600%Z /\ read (timeout q) = 600%Z
        /\ write (timeout q) = 600%Z /\ pool (timeout q) = 600%Z)
  /\ (forall (t : tool) (argument : string) (u : Upstream) (w : World),
         exists q,
           sent_by (call_tool t argument) u w = (sent w ++ [q])%list
           /\ connect (timeout q) = 600%Z /\ read (timeout q) = 600%Z
           /\ write (timeout q) = 600%Z /\ pool (timeout q) = 600%Z).
Proof.
  split.
  - intros client endpoint data u w.
    exists {| method := POST; url := API_BASE ++ endpoint; body := data;
              headers := [("Content-Type", "application/json")];
              timeout := {| connect := 600; read := 600; write := 600; pool := 600 |} |}.
    split; [|repeat split].
    run.
    match goal with
    | |- context [send u ?q] => destruct (send u q) as [[ph m|m r|cls m]|r]
    end; run; try reflexivity.
    destruct (is_success r); run; try reflexivity.
    destruct (json_body r) as [v|cls m]; reflexivity.
  - intros t argument u w. exists (request_of t argument).
    split; [apply run_sent | repeat split].
Qed.

(** C9. The branch a tool takes when the result of the gateway is a dict with
    [success == False] returns the same text as the default branch: for any
    gateway, the tool and the tool without that branch return the same result
    and send the same requests. *)
Theorem C9_success_check_does_not_change_output
    (g : AsyncClient -> string -> json -> Py json)
    (t : tool) (argument : string) (u : Upstream) (w : World) :
  result_of (call_tool_with g t argument) u w
  = result_of (tool_without_check g t argument) u w
  /\ sent_by (call_tool_with g t argument) u w
     = sent_by (tool_without_check g t argument) u w.
Proof.
  destruct t; run;
    match goal with
    | |- context [g ?c ?e ?d u ?w'] => destruct (g c e d u w') as [[data|e0] w'']
    end; run;
    try (destruct (declares_failure data)); split; reflexivity.
Qed.

(** C10, as stated, fails: the body [-1e400] is a JSON number, [r.json()]
    reads it as [float('-inf')], and the tool returns the word [-Infinity],
    which is not the JSON serialisation of anything. *)
Lemma C10_counterexample :
  send (upstream_replying response_overflow_number)
    (request_of tool_generate_episodic_beats_from_file "./x.txt")
  = inr response_overflow_number
  /\ is_success response_overflow_number = true
  /\ (exists body, parse_json (text response_overflow_number) = Some body
                   /\ is_dict body = false)
  /\ json_body response_overflow_number = JsonValue (JFloat PyNegInf)
  /\ is_dict (JFloat PyNegInf) = false
  /\ result_of (call_tool tool_generate_episodic_beats_from_file "./x.txt")
       (upstream_replying response_overflow_number) world0
     = Return "-Infinity"
  /\ parse_json "-Infinity" = None.
Proof. repeat split. eexists. split; reflexivity. Qed.

(** C10, amended. When the upstream answers 2xx with a JSON body that is not
    an object, the check of the [success] flag does not apply: the tool
    returns [json.dumps] of the decoded body as a success, logging no error.
    The text is the JSON serialisation of the body, parsing back to it, when
    no float of the body is not-a-number or an infinity. *)
Theorem C10_non_object_body_is_a_success
    (t : tool) (argument : string) (u : Upstream) (w : World)
    (r : Response) (v : json) :
  send u (request_of t argument) = inr r ->
  is_success r = true ->
  json_body r = JsonValue v ->
  is_dict v = false ->
  declares_failure v = false
  /\ result_of (call_tool t argument) u w = Return (json_dumps false (Some 2%nat) v)
  /\ parse_json_or_constants (json_dumps false (Some 2%nat) v) = Some v
  /\ (all_finite v = true ->
      parse_json (json_dumps false (Some 2%nat) v) = Some v)
  /\ exists records,
       logged_by (call_tool t argument) u w = (log w ++ records)%list
       /\ Forall (fun l => levelname l = INFO) records
       /\ In {| levelname := INFO; msg := success_message t; exc_info := false |}
            records.
Proof.
  intros Hsend Hok Hbody Hdict.
  assert (Hno : declares_failure v = false)
    by (unfold declares_failure; now rewrite Hdict).
  split; [assumption|]. split; [|split; [|split]].
  - exact (run_success t argument u w r v Hsend Hok Hbody).
  - apply Roundtrip.parse_json_or_constants_dumps.
  - apply Roundtrip.parse_json_dumps.
  - eexists. split; [|split].
    + exact (run_success_log t argument u w r v Hsend Hok Hbody Hno).
    + repeat constructor.
    + simpl. tauto.
Qed.

Lemma C10_witness :
  (send (upstream_replying response_number)
     (request_of tool_ask_vector_db "How close is the match?")
   = inr response_number
   /\ is_success response_number = true
   /\ json_body response_number = JsonValue (JFloat float_1_5)
   /\ is_dict (JFloat float_1_5) = false
   /\ all_finite (JFloat float_1_5) = true)
  /\ declares_failure (JFloat float_1_5) = false
  /\ result_of (call_tool tool_ask_vector_db "How close is the match?")
       (upstream_replying response_number) world0
     = Return "1.5"
  /\ parse_json "1.5" = Some (JFloat float_1_5)
  /\ exists records,
       logged_by (call_tool tool_ask_vector_db "How close is the match?")
         (upstream_replying response_number) world0 = (log world0 ++ records)%list
       /\ Forall (fun l => levelname l = INFO) records
       /\ In {| levelname := INFO;
                msg := success_message tool_ask_vector_db;
                exc_info := false |} records.
Proof.
  split; [repeat split|].
  destruct (C10_non_object_body_is_a_success tool_ask_vector_db
              "How close is the match?"
              (upstream_replying response_number) world0 response_number
              (JFloat float_1_5) eq_refl eq_refl eq_refl eq_refl)
    as (Hno & Hrun & _ & Hjson & Hlog).
  split; [exact Hno|]. split; [exact Hrun|]. split; [exact (Hjson eq_refl)|].
  exact Hlog.
Defined.

(** ** Further properties of the gateway and the tools *)

(** Evaluates the check of the [success] flag on a document written out in
    the goal. *)
Ltac decide_failure :=
  repeat match goal with
         | |- context [declares_failure (JDict ?d)] =>
             let b := eval cbv in (declares_failure (JDict d)) in
             change (declares_failure (JDict d)) with b
         end;
  cbv iota.

(** Splits on everything the upstream can do with the request in the goal. *)
Ltac upstream_cases u :=
  match goal with
  | |- context [send u ?q] =>
      let Hsend := fresh "Hsend" in
      destruct (send u q) as [[ph m|m r|cls m]|r] eqn:Hsend; run; decide_failure;
      [ | | |
        let Hok := fresh "Hok" in
        destruct (is_success r) eqn:Hok; run; decide_failure;
        [ let Hbody := fresh "Hbody" in
          destruct (json_body r) as [v|cls m] eqn:Hbody; run; decide_failure;
          [ let Hv := fresh "Hv" in
            destruct (declares_failure v) eqn:Hv; run | ]
        | ] ]
  end.

(** A run of the gateway only appends to the requests sent and the records
    logged, and what it returns and appends does not depend on them. *)
Lemma api_post_frame (client : AsyncClient) (endpoint : string) (data : json)
    (u : Upstream) (w : World) :
  _api_post client endpoint data u w
  = (result_of (_api_post client endpoint data) u world0,
     {| sent := (sent w ++ sent_by (_api_post client endpoint data) u world0)%list;
        log := (log w ++ logged_by (_api_post client endpoint data) u world0)%list |}).
Proof.
  unfold world0. run.
  match goal with
  | |- context [send u ?q] => destruct (send u q) as [[ph m|m r|cls m]|r]
  end; run; cbn [Datatypes.app]; rewrite <- ?app_assoc; try reflexivity;
    destruct (is_success r); run; cbn [Datatypes.app]; rewrite <- ?app_assoc;
    try reflexivity;
    destruct (json_body r) as [v|cls m]; run; cbn [Datatypes.app]; rewrite <- ?app_assoc;
    reflexivity.
Qed.

(** The same for a call of a tool. *)
Lemma call_tool_frame (t : tool) (argument : string) (u : Upstream) (w : World) :
  call_tool t argument u w
  = (result_of (call_tool t argument) u world0,
     {| sent := (sent w ++ sent_by (call_tool t argument) u world0)%list;
        log := (log w ++ logged_by (call_tool t argument) u world0)%list |}).
Proof.
  unfold world0. destruct t; run; upstream_cases u;
    cbn [Datatypes.app]; rewrite <- ?app_assoc; reflexivity.
Qed.

(** X1. The classification of [_api_post] is exhaustive and first match
    wins: for any endpoint and any body of the kind the tools pass (a dict of
    one string field), and whatever the upstream does, the gateway returns a
    value and never raises.  When the call is not a classified failure the
    value is the decoded body of a 2xx response; otherwise it is a dict that
    the tools' check recognises as a failure ([success] is [False]) and whose
    [error] is a string. *)
Theorem X1_gateway_never_raises
    (client : AsyncClient) (endpoint : string) (field value : string)
    (u : Upstream) (w : World) :
  exists v,
    result_of (_api_post client endpoint (JDict [(field, JStr value)])) u w
    = Return v
    /\ match classify u (api_request endpoint (JDict [(field, JStr value)])) with
       | None =>
           exists r, send u (api_request endpoint (JDict [(field, JStr value)]))
                     = inr r
                     /\ is_success r = true
                     /\ json_body r = JsonValue v
       | Some _ =>
           declares_failure v = true
           /\ get v "success" = Some (JBool false)
           /\ exists message, get v "error" = Some (JStr message)
       end.
Proof.
  unfold classify, api_request. run.
  destruct (send u _) as [[ph m|m r|cls m]|r] eqn:Hsend; run.
  - eexists. split; [reflexivity|]. repeat split. eexists. reflexivity.
  - eexists. split; [reflexivity|]. repeat split. eexists. reflexivity.
  - eexists. split; [reflexivity|]. repeat split. eexists. reflexivity.
  - destruct (is_success r) eqn:Hok; run.
    + destruct (json_body r) as [v|cls m] eqn:Hbody; run.
      * exists v. split; [reflexivity|]. exists r. repeat split; assumption.
      * eexists. split; [reflexivity|]. repeat split. eexists. reflexivity.
    + eexists. split; [reflexivity|]. repeat split. eexists. reflexivity.
Qed.

(** X2. The tools keep no state between calls.  A call only appends to the
    requests sent and the records logged, and what it returns and appends
    does not depend on what earlier calls left behind.  Two calls in a row,
    whatever the upstream does at the first ([u1]) and at the second ([u2]),
    return what each returns on its own, send their two requests in order,
    and log the records of the first followed by those of the second. *)
Theorem X2_calls_compose
    (t1 t2 : tool) (a1 a2 : string) (u1 u2 : Upstream) (w : World) :
  exists out1 out2,
    result_of (call_tool t1 a1) u1 world0 = Return out1
    /\ result_of (call_tool t2 a2) u2 world0 = Return out2
    /\ result_of (call_tool t1 a1) u1 w = Return out1
    /\ call_tool t2 a2 u2 (snd (call_tool t1 a1 u1 w))
       = (Return out2,
          {| sent := (sent w ++ [request_of t1 a1; request_of t2 a2])%list;
             log := (log w ++ logged_by (call_tool t1 a1) u1 world0
                       ++ logged_by (call_tool t2 a2) u2 world0)%list |}).
Proof.
  destruct (run_with_gateway _api_post t1 a1 u1 world0) as (out1 & H1).
  destruct (run_with_gateway _api_post t2 a2 u2 world0) as (out2 & H2).
  fold call_tool in H1, H2.
  exists out1, out2. split; [assumption|]. split; [assumption|].
  unfold result_of at 1.
  rewrite (call_tool_frame t1 a1 u1 w), H1.
  split; [reflexivity|].
  rewrite (call_tool_frame t2 a2 u2), H2.
  cbn [snd sent log].
  rewrite (run_sent t1 a1 u1 world0), (run_sent t2 a2 u2 world0).
  cbn [sent world0 Datatypes.app]. rewrite <- !app_assoc. reflexivity.
Qed.

(** Takes the value of the gateway, and the records the gateway logged after
    its two request lines, from the run on the left of the goal. *)
Ltac give_value :=
  match goal with
  | |- context [Return (json_dumps false (Some 2%nat) ?d)] => exists d
  end.

Ltac give_records :=
  match goal with
  | |- context [Datatypes.app
                  (Datatypes.app
                     (Datatypes.app
                        (Datatypes.app
                           (Datatypes.app
                              (Datatypes.app (Datatypes.app _ (cons _ nil)) (cons _ nil))
                              (cons _ nil)) (cons _ nil))
                        (cons ?e1 nil)) (cons ?e2 nil)) (cons _ nil)] =>
      exists (cons e1 (cons e2 nil))
  | |- context [Datatypes.app
                  (Datatypes.app
                     (Datatypes.app
                        (Datatypes.app
                           (Datatypes.app (Datatypes.app _ (cons _ nil)) (cons _ nil))
                           (cons _ nil)) (cons _ nil))
                     (cons ?e1 nil)) (cons _ nil)] =>
      exists (cons e1 nil)
  end.

(** X3. What a call logs.  Whatever the upstream does, a tool logs its two
    start lines and the two request lines of the gateway at [INFO], then the
    records of the gateway's outcome, then one record of its own: at [ERROR]
    with [data.get('error')] when the result declares a failure, at [INFO]
    otherwise.  The gateway logs one [ERROR] record exactly when the call is a
    classified failure, and then the tool's record is an [ERROR] too; no
    record carries a traceback. *)
Theorem X3_records_logged
    (t : tool) (argument : string) (u : Upstream) (w : World) :
  exists v gateway_records,
    result_of (call_tool t argument) u w = Return (json_dumps false (Some 2%nat) v)
    /\ logged_by (call_tool t argument) u w
       = (log w ++
            [ {| levelname := INFO; msg := called_message t argument;
                 exc_info := false |};
              {| levelname := INFO; msg := started_message t;
                 exc_info := false |};
              {| levelname := INFO;
                 msg := [Text "Making API request to: ";
                         Text (API_BASE ++ endpoint_of t)];
                 exc_info := false |};
              {| levelname := INFO;
                 msg := [Text "Request data: ";
                         Text (json_dumps true (Some 2%nat)
                                 (JDict [(field_of t, JStr argument)]))];
                 exc_info := false |} ]
            ++ gateway_records
            ++ [ if declares_failure v
                 then {| levelname := ERROR; msg := failure_message t v;
                         exc_info := false |}
                 else {| levelname := INFO; msg := success_message t;
                         exc_info := false |} ])%list
    /\ Forall (fun r => exc_info r = false) gateway_records
    /\ match classify u (request_of t argument) with
       | None => errors gateway_records = 0
       | Some _ => errors gateway_records = 1 /\ declares_failure v = true
       end.
Proof.
  unfold classify.
  destruct t; run; upstream_cases u; give_value; give_records;
    (split; [reflexivity|]);
    (split; [rewrite <- !app_assoc; try rewrite Hv; reflexivity|]);
    (split; [repeat constructor|]);
    try reflexivity; split; reflexivity.
Qed.

(** ** The characters the encoder writes *)

Module Charset.
Import Encoder.

Lemma all_chars_append (p : ascii -> bool) (a b : string) :
  all_chars p (a ++ b) = all_chars p a && all_chars p b.
Proof.
  induction a as [|c a IH]; simpl; [reflexivity|].
  now rewrite IH, andb_assoc.
Qed.

Lemma all_chars_weaken (p q : ascii -> bool) (s : string) :
  (forall c, p c = true -> q c = true) ->
  all_chars p s = true -> all_chars q s = true.
Proof.
  intros Hpq. induction s as [|c s IH]; simpl; [reflexivity|].
  intros H. apply andb_true_iff in H. destruct H as [Hc Hs].
  now rewrite (Hpq c Hc), IH.
Qed.

Lemma hex_digit_plain (n : N) : is_plain_ascii (hex_digit n) = true.
Proof.
  destruct n as [|p]; [reflexivity|].
  do 4 (try destruct p as [p|p|]); reflexivity.
Qed.

Lemma hex4_plain (n : N) : all_chars is_plain_ascii (hex4 n) = true.
Proof. unfold hex4. simpl. now rewrite !hex_digit_plain. Qed.

(** Every escape of [ESCAPE_DCT] is made of printable ASCII characters. *)
Lemma escape_dct_plain (c : ascii) (e : string) :
  escape_dct c = Some e -> all_chars is_plain_ascii e = true.
Proof.
  unfold escape_dct.
  repeat match goal with
         | |- context [if ?b then _ else _] => destruct b
         end; try discriminate; intros [= <-]; try reflexivity.
  cbn [all_chars]. now rewrite hex4_plain.
Qed.

(** A character [ESCAPE_DCT] does not list is not a control character. *)
Lemma escape_dct_none (c : ascii) :
  escape_dct c = None -> is_copied c = true.
Proof.
  unfold escape_dct, is_copied.
  destruct (code c =? 92)%N; [discriminate|].
  destruct (code c =? 34)%N; [discriminate|].
  repeat match goal with
         | |- context [if (code c =? ?k)%N then _ else _] =>
             destruct (code c =? k)%N; [discriminate|]
         end.
  destruct (N.ltb_spec (code c) 32); [discriminate|].
  intros _. destruct (N.leb_spec 32 (code c)); [reflexivity | lia].
Qed.

Lemma escape_dct_copied (c : ascii) :
  is_copied c = true -> escape_dct c = None.
Proof.
  unfold escape_dct, is_copied. intros H.
  apply andb_true_iff in H. destruct H as [H H92].
  apply andb_true_iff in H. destruct H as [H32 H34].
  apply N.leb_le in H32.
  apply negb_true_iff in H34, H92. rewrite H92, H34.
  repeat match goal with
         | |- context [(code c =? ?k)%N] =>
             destruct (N.eqb_spec (code c) k); [lia|]
         end.
  destruct (N.ltb_spec (code c) 32); [lia | reflexivity].
Qed.

Lemma escape_code_point_plain (n : N) :
  all_chars is_plain_ascii (escape_code_point n) = true.
Proof.
  unfold escape_code_point. destruct (n <? 65536)%N.
  - cbn [all_chars]. now rewrite hex4_plain.
  - rewrite all_chars_append. cbn [all_chars]. now rewrite !hex4_plain.
Qed.

Lemma plain_not_C0_control (c : ascii) :
  is_plain_ascii c = true -> not_C0_control c = true.
Proof.
  unfold is_plain_ascii, not_C0_control. intros H.
  now apply andb_true_iff in H.
Qed.

Lemma plain_is_ascii (c : ascii) : is_plain_ascii c = true -> is_ascii c = true.
Proof.
  unfold is_plain_ascii, is_ascii. intros H.
  apply andb_true_iff in H. destruct H as [_ H].
  apply N.ltb_lt in H. apply N.ltb_lt. lia.
Qed.

Lemma copied_not_C0_control (c : ascii) :
  is_copied c = true -> not_C0_control c = true.
Proof.
  unfold is_copied, not_C0_control. intros H.
  apply andb_true_iff in H. destruct H as [H _].
  now apply andb_true_iff in H.
Qed.

(** Without [ensure_ascii] the escaped text has no C0 control character. *)
Lemma escape_not_C0_control (s : string) : all_chars not_C0_control (escape s) = true.
Proof.
  induction s as [|c s IH]; [reflexivity|]. cbn [escape].
  destruct (escape_dct c) as [e|] eqn:E.
  - rewrite all_chars_append, IH, andb_true_r.
    apply all_chars_weaken with (p := is_plain_ascii);
      [exact plain_not_C0_control | exact (escape_dct_plain c e E)].
  - cbn [all_chars]. rewrite IH, andb_true_r.
    apply copied_not_C0_control. now apply escape_dct_none.
Qed.

(** With [ensure_ascii] the escaped text is printable ASCII, whatever the
    bytes of the string. *)
Lemma escape_ascii_plain (n : nat) :
  forall s, String.length s <= n ->
            all_chars is_plain_ascii (escape_ascii s) = true.
Proof.
  induction n as [|n IH]; intros s Hlen.
  - destruct s; [reflexivity | simpl in Hlen; lia].
  - destruct s as [|c r]; [reflexivity|]. cbn [escape_ascii].
    simpl in Hlen.
    destruct (code c <? 128)%N eqn:H128.
    + destruct (escape_dct c) as [e|] eqn:E.
      * rewrite all_chars_append, (escape_dct_plain c e E).
        apply IH. lia.
      * destruct (code c =? 127)%N eqn:H127.
        -- rewrite all_chars_append, escape_code_point_plain. apply IH. lia.
        -- cbn [all_chars]. rewrite IH by lia. rewrite andb_true_r.
           pose proof (escape_dct_none c E) as Hc.
           unfold is_copied in Hc. unfold is_plain_ascii.
           apply andb_true_iff in Hc. destruct Hc as [Hc _].
           apply andb_true_iff in Hc. destruct Hc as [Hc _].
           rewrite Hc. apply N.ltb_lt in H128. apply N.eqb_neq in H127.
           apply N.ltb_lt. lia.
    + destruct (code c <? 224)%N.
      * destruct r as [|c1 r1]; [apply escape_code_point_plain|].
        rewrite all_chars_append, escape_code_point_plain.
        apply IH. simpl in Hlen. lia.
      * destruct (code c <? 240)%N.
        -- destruct r as [|c1 [|c2 r2]]; try apply escape_code_point_plain.
           rewrite all_chars_append, escape_code_point_plain.
           apply IH. simpl in Hlen. lia.
        -- destruct r as [|c1 [|c2 [|c3 r3]]]; try apply escape_code_point_plain.
           rewrite all_chars_append, escape_code_point_plain.
           apply IH. simpl in Hlen. lia.
Qed.

Lemma spaces_plain (n : nat) : all_chars is_plain_ascii (spaces n) = true.
Proof. induction n as [|n IH]; [reflexivity | exact IH]. Qed.

Lemma uint_plain (d : uint) :
  all_chars is_plain_ascii (NilEmpty.string_of_uint d) = true.
Proof. induction d; simpl; auto. Qed.

Lemma py_str_int_plain (n : Z) : all_chars is_plain_ascii (py_str_int n) = true.
Proof.
  unfold py_str_int. destruct n as [|p|p]; [reflexivity| |];
    cbn [Z.to_int NilZero.string_of_int all_chars];
    rewrite Roundtrip.string_of_uint_nonnil
      by apply DecimalPos.Unsigned.to_uint_nonnil;
    rewrite uint_plain; reflexivity.
Qed.

Lemma digits_text_plain (ds : list digits) :
  all_chars is_plain_ascii (digits_text ds) = true.
Proof.
  induction ds as [|d ds IH]; [reflexivity|].
  cbn [digits_text all_chars]. rewrite IH. now destruct d.
Qed.

Lemma exponent_text_plain (e : exponent) :
  all_chars is_plain_ascii (exponent_text e) = true.
Proof.
  unfold exponent_text. rewrite !all_chars_append, digits_text_plain.
  now destruct (exp_negative e).
Qed.

(** The text of a float is printable ASCII, also [NaN] and [Infinity]. *)
Lemma floatstr_plain (f : pyfloat) : all_chars is_plain_ascii (floatstr f) = true.
Proof.
  destruct f as [| | |[minus n t]]; try reflexivity.
  unfold floatstr, float_repr. cbn [negative int_part tail].
  rewrite !all_chars_append, uint_plain.
  destruct t as [f [e|]|e];
    rewrite ?all_chars_append, ?digits_text_plain, ?exponent_text_plain;
    now destruct minus.
Qed.

Section Iterencode.
Variables (ensure_ascii : bool) (indent : option nat) (p : ascii -> bool).
Hypothesis Hplain : forall c, is_plain_ascii c = true -> p c = true.
Hypothesis Hindent : forall level, all_chars p (newline_indent indent level) = true.
Hypothesis Hencoder : forall s, all_chars p (_encoder ensure_ascii s) = true.

Lemma plain_text (s : string) :
  all_chars is_plain_ascii s = true -> all_chars p s = true.
Proof. apply all_chars_weaken. exact Hplain. Qed.

(** Every character the encoder writes for a value is one of those of its
    string literals, of its indentation, or printable ASCII. *)
Lemma iterencode_chars (v : json) :
  forall level, all_chars p (_iterencode ensure_ascii indent level v) = true.
Proof.
  induction v as [| b | n | f | s | l IHl | d IHd] using json_ind_nested;
    intros level.
  - now apply plain_text.
  - destruct b; now apply plain_text.
  - apply plain_text, py_str_int_plain.
  - apply plain_text, floatstr_plain.
  - apply Hencoder.
  - destruct l as [|x xs]; [now apply plain_text|].
    inversion IHl as [|? ? Hx Hxs]; subst. cbn [_iterencode].
    rewrite !all_chars_append, Hindent, Hx, Hindent.
    rewrite (plain_text "[" eq_refl), (plain_text "]" eq_refl).
    cbn [andb]. rewrite andb_true_r.
    clear Hx IHl. induction xs as [|y ys IH]; [reflexivity|].
    inversion Hxs as [|? ? Hy Hys]; subst.
    rewrite !all_chars_append, Hindent, Hy, (IH Hys).
    rewrite plain_text; [reflexivity|].
    unfold _item_separator. now destruct indent.
  - destruct d as [|[k v] kvs]; [now apply plain_text|].
    inversion IHd as [|? ? Hv Hkvs]; subst. simpl in Hv. cbn [_iterencode].
    rewrite !all_chars_append, !Hindent, Hencoder, Hv.
    rewrite (plain_text "{" eq_refl), (plain_text "}" eq_refl).
    rewrite (plain_text _key_separator eq_refl).
    cbn [andb]. rewrite andb_true_r.
    clear Hv IHd. induction kvs as [|[k' v'] l IH]; [reflexivity|].
    inversion Hkvs as [|? ? Hy Hys]; subst. simpl in Hy.
    rewrite !all_chars_append, Hindent, Hencoder, Hy, (IH Hys).
    rewrite (plain_text _key_separator eq_refl).
    rewrite plain_text; [reflexivity|].
    unfold _item_separator. now destruct indent.
Qed.
End Iterencode.
End Charset.

Lemma encoder_ascii_plain (s : string) :
  all_chars is_plain_ascii (Encoder._encoder true s) = true.
Proof.
  unfold Encoder._encoder, Encoder.py_encode_basestring_ascii.
  cbn [all_chars]. rewrite Charset.all_chars_append.
  now rewrite (Charset.escape_ascii_plain (String.length s) s (le_n _)).
Qed.

Lemma encoder_not_C0_control (ensure_ascii : bool) (s : string) :
  all_chars not_C0_control (Encoder._encoder ensure_ascii s) = true.
Proof.
  destruct ensure_ascii.
  - apply Charset.all_chars_weaken with (p := is_plain_ascii);
      [exact Charset.plain_not_C0_control | apply encoder_ascii_plain].
  - unfold Encoder._encoder, Encoder.py_encode_basestring.
    cbn [all_chars]. rewrite Charset.all_chars_append.
    now rewrite Charset.escape_not_C0_control.
Qed.

Lemma newline_indent_chars (p : ascii -> bool) (indent : option nat) (level : nat) :
  p LF = true -> p space = true ->
  all_chars p (Encoder.newline_indent indent level) = true.
Proof.
  intros HLF Hspace. unfold Encoder.newline_indent.
  destruct indent as [k|]; [|reflexivity].
  cbn [all_chars]. rewrite HLF.
  induction (k * level)%nat as [|n IH]; [reflexivity|].
  cbn [spaces all_chars]. now rewrite Hspace.
Qed.

(** X4. The request data the gateway logs with [json.dumps(data, indent=2)]
    is pure ASCII whatever the body holds: with [ensure_ascii] left at its
    default every character of the text is below 0x80, for any indent. *)
Theorem X4_ensure_ascii_text_is_ascii (indent : option nat) (data : json) :
  all_chars is_ascii (json_dumps true indent data) = true.
Proof.
  unfold json_dumps. apply Charset.iterencode_chars.
  - exact Charset.plain_is_ascii.
  - intros level. now apply newline_indent_chars.
  - intros s. apply Charset.all_chars_weaken with (p := is_plain_ascii);
      [exact Charset.plain_is_ascii | apply encoder_ascii_plain].
Qed.

(** X5. With [ensure_ascii=False] a string is written between quotes as it
    is when none of its characters is a control character, a double quote or
    a backslash; in particular every non-ASCII character of an upstream body
    reaches the caller unescaped. *)
Theorem X5_plain_strings_are_copied (indent : option nat) (s : string) :
  all_chars is_copied s = true ->
  json_dumps false indent (JStr s) = quoted s.
Proof.
  intros H. unfold json_dumps, quoted. cbn [Encoder._iterencode].
  unfold Encoder._encoder, Encoder.py_encode_basestring. do 2 f_equal.
  induction s as [|c s IH]; [reflexivity|].
  cbn [all_chars] in H. apply andb_true_iff in H. destruct H as [Hc Hs].
  cbn [Encoder.escape]. rewrite (Charset.escape_dct_copied c Hc).
  now rewrite (IH Hs).
Qed.

Lemma X5_witness :
  all_chars is_copied "naïve 𝄞 café" = true
  /\ json_dumps false (Some 2%nat) (JStr "naïve 𝄞 café") = quoted "naïve 𝄞 café".
Proof.
  split; [reflexivity|].
  apply (X5_plain_strings_are_copied (Some 2%nat) "naïve 𝄞 café"). reflexivity.
Defined.

(** X6. The text a tool returns holds no raw C0 control character (a byte
    below 0x20) other than the line feeds of its indentation: inside strings
    those characters are always escaped.  So the compact document of the
    tools' own handler ([json.dumps] without an indent) has no line break,
    and the indented documents break lines only where the encoder indents.
    DEL and the C1 controls are not escaped with [ensure_ascii=False]: the
    tools write them raw.  With [ensure_ascii], as for the request data in
    the log, the text is printable ASCII and those line feeds only. *)
Theorem X6_no_raw_C0_control_characters :
  (forall (ensure_ascii : bool) (v : json),
      all_chars not_C0_control (json_dumps ensure_ascii None v) = true
      /\ forall k : nat,
           all_chars not_C0_control_or_LF (json_dumps ensure_ascii (Some k) v)
           = true)
  /\ (forall v : json,
         all_chars is_plain_ascii (json_dumps true None v) = true
         /\ forall k : nat,
              all_chars is_plain_ascii_or_LF (json_dumps true (Some k) v) = true)
  /\ json_dumps false (Some 2%nat) (JStr (String "127"%char ""))
     = quoted (String "127"%char "")
  /\ json_dumps false (Some 2%nat) (JStr (String "194"%char (String "133"%char "")))
     = quoted (String "194"%char (String "133"%char "")).
Proof.
  unfold json_dumps. split; [|split; [|split; reflexivity]].
  - intros ensure_ascii v. split; [|intros k]; apply Charset.iterencode_chars.
    + exact Charset.plain_not_C0_control.
    + reflexivity.
    + apply encoder_not_C0_control.
    + intros c Hc. unfold not_C0_control_or_LF.
      now rewrite (Charset.plain_not_C0_control c Hc).
    + intros level. now apply newline_indent_chars.
    + intros s. apply Charset.all_chars_weaken with (p := not_C0_control);
        [| apply encoder_not_C0_control].
      intros c Hc. unfold not_C0_control_or_LF. now rewrite Hc.
  - intros v. split; [|intros k]; apply Charset.iterencode_chars.
    + exact (fun c Hc => Hc).
    + reflexivity.
    + apply encoder_ascii_plain.
    + intros c Hc. unfold is_plain_ascii_or_LF. now rewrite Hc.
    + intros level. now apply newline_indent_chars.
    + intros s. apply Charset.all_chars_weaken with (p := is_plain_ascii);
        [| apply encoder_ascii_plain].
      intros c Hc. unfold is_plain_ascii_or_LF. now rewrite Hc.
Qed.

(** The encoder without [ensure_ascii] is injective: the text determines the
    value, floats that are not-a-number or infinite included. *)
Lemma json_dumps_injective (i1 i2 : option nat) (v1 v2 : json) :
  json_dumps false i1 v1 = json_dumps false i2 v2 -> v1 = v2.
Proof.
  intros H. apply (f_equal parse_json_or_constants) in H.
  rewrite !Roundtrip.parse_json_or_constants_dumps in H. now injection H.
Qed.

(** X7. The text a tool returns for a 2xx response determines the value
    [r.json()] decoded from the body: two calls (of any tools, against any
    upstreams) that are answered with JSON bodies and return the same text
    were answered with bodies that decode to the same value.  Bodies that
    decode alike ([1e400] and [1e999], an object with a repeated key and the
    object of its last entries) are not told apart; no two decoded values are
    conflated. *)
Theorem X7_output_determines_decoded_body
    (t1 t2 : tool) (a1 a2 : string) (u1 u2 : Upstream) (w1 w2 : World)
    (r1 r2 : Response) (v1 v2 : json) :
  send u1 (request_of t1 a1) = inr r1 -> is_success r1 = true ->
  json_body r1 = JsonValue v1 ->
  send u2 (request_of t2 a2) = inr r2 -> is_success r2 = true ->
  json_body r2 = JsonValue v2 ->
  result_of (call_tool t1 a1) u1 w1 = result_of (call_tool t2 a2) u2 w2 ->
  v1 = v2.
Proof.
  intros S1 O1 B1 S2 O2 B2 H.
  rewrite (run_success t1 a1 u1 w1 r1 v1 S1 O1 B1) in H.
  rewrite (run_success t2 a2 u2 w2 r2 v2 S2 O2 B2) in H.
  injection H as H. now apply json_dumps_injective in H.
Qed.

Lemma X7_witness :
  result_of (call_tool tool_generate_story "Tell me a story")
    (upstream_replying response_overflow) world0
  = result_of (call_tool tool_ask_vector_db "list them")
      (upstream_replying
         {| status_code := 200; text := "[1e999]";
            json_body := JsonValue (JList [JFloat PyInf]) |}) world0
  /\ JList [JFloat PyInf] = JList [JFloat PyInf].
Proof.
  split; [reflexivity|].
  apply (X7_output_determines_decoded_body tool_generate_story tool_ask_vector_db
           "Tell me a story" "list them"
           (upstream_replying response_overflow)
           (upstream_replying
              {| status_code := 200; text := "[1e999]";
                 json_body := JsonValue (JList [JFloat PyInf]) |})
           world0 world0 response_overflow
           {| status_code := 200; text := "[1e999]";
              json_body := JsonValue (JList [JFloat PyInf]) |});
    reflexivity.
Defined.

(** The document a tool returns for each class of failure. *)
Lemma classified_document
    (t : tool) (argument : string) (u : Upstream) (w : World) (k : failure) :
  classify u (request_of t argument) = Some k ->
  exists doc,
    result_of (call_tool t argument) u w = Return (json_dumps false (Some 2%nat) doc)
    /\ match k with
       | timeout_failure =>
           doc = JDict
                   [("error", JStr "Request timed out. The API is taking longer than expected. Please try again.");
                    ("error_type", JStr "timeout");
                    ("success", JBool false)]
       | http_status_error =>
           exists code details,
             doc = JDict
                     [("error", JStr ("API returned error: " ++ py_str_int code));
                      ("error_details", JStr details);
                      ("success", JBool false)]
       | transport_error =>
           exists m cls,
             doc = JDict
                     [("error", JStr ("Request failed: " ++ m));
                      ("error_type", JStr cls);
                      ("success", JBool false)]
       end.
Proof.
  unfold classify. intros Hk.
  destruct (send u (request_of t argument)) as [[ph m|m r|cls m]|r] eqn:Hsend.
  - injection Hk as <-. eexists. split;
      [exact (run_timeout t argument u w ph m Hsend) | reflexivity].
  - injection Hk as <-. eexists. split.
    + revert Hsend. destruct t; run; intros Hsend; rewrite Hsend; reflexivity.
    + eexists _, _. reflexivity.
  - injection Hk as <-. eexists. split;
      [exact (run_other t argument u w cls m Hsend) | eexists _, _; reflexivity].
  - destruct (is_success r) eqn:Hok.
    + destruct (json_body r) as [v|cls m] eqn:Hbody; [discriminate|].
      injection Hk as <-. eexists. split;
        [exact (run_malformed t argument u w r cls m Hsend Hok Hbody)
        | eexists _, _; reflexivity].
    + injection Hk as <-. eexists. split;
        [exact (run_status t argument u w r Hsend Hok)
        | eexists _, _; reflexivity].
Qed.

(** X8. The class of a failure can be read off the text returned: two calls
    that fail in different classes (timeout, HTTP status, transport) never
    return the same text, whatever the tools, arguments, status codes, bodies
    and exception messages. *)
Theorem X8_failure_class_is_recoverable
    (t1 t2 : tool) (a1 a2 : string) (u1 u2 : Upstream) (w1 w2 : World)
    (k1 k2 : failure) :
  classify u1 (request_of t1 a1) = Some k1 ->
  classify u2 (request_of t2 a2) = Some k2 ->
  result_of (call_tool t1 a1) u1 w1 = result_of (call_tool t2 a2) u2 w2 ->
  k1 = k2.
Proof.
  intros H1 H2 H.
  destruct (classified_document t1 a1 u1 w1 k1 H1) as (d1 & R1 & D1).
  destruct (classified_document t2 a2 u2 w2 k2 H2) as (d2 & R2 & D2).
  rewrite R1, R2 in H. injection H as H. apply json_dumps_injective in H.
  subst d2.
  destruct k1, k2; try reflexivity; exfalso;
    repeat match goal with
           | H : exists _, _ |- _ => destruct H
           end; subst; cbn in *; discriminate.
Qed.

Lemma X8_witness :
  (classify (upstream_replying response_500)
     (request_of tool_generate_story "Tell me a story") = Some http_status_error
   /\ classify (upstream_replying response_500)
        (request_of tool_ask_vector_db "list them") = Some http_status_error
   /\ result_of (call_tool tool_generate_story "Tell me a story")
        (upstream_replying response_500) world0
      = result_of (call_tool tool_ask_vector_db "list them")
          (upstream_replying response_500) world0)
  /\ http_status_error = http_status_error.
Proof.
  split; [repeat split|].
  apply (X8_failure_class_is_recoverable tool_generate_story tool_ask_vector_db
           "Tell me a story" "list them"
           (upstream_replying response_500) (upstream_replying response_500)
           world0 world0); reflexivity.
Defined.

(** What the tools' check [isinstance(data, dict) and data.get(success) ==
    False] accepts. *)
Lemma declares_failure_iff (v : json) :
  declares_failure v = true <-> exists d, v = JDict d /\ success_is_falsy d.
Proof.
  unfold declares_failure, get, py_eq_False, success_is_falsy. split.
  - destruct v as [| | | | | |d]; try discriminate. cbn [is_dict andb].
    intros H. exists d. split; [reflexivity|].
    destruct (dict_get d "success") as [[|[|]|n|f| | |]|]; try discriminate.
    + now left.
    + apply Z.eqb_eq in H. subst n. right. now left.
    + right. right. now exists f.
  - intros (d & -> & [H|[H|(f & H & Hf)]]); rewrite H; [reflexivity ..| exact Hf].
Qed.

(** X9. An upstream-declared failure is logged, not rewritten.  For a 2xx
    response with JSON body [v] the tool returns [v] serialised in every
    case, and logs exactly one [ERROR] record when [v] is a dict whose
    [success] entry is [False] or a number equal to zero (the integer [0],
    the floats [0.0] and [-0.0], which Python's [==] equates with [False]),
    and none otherwise: a missing key, [null], a string or a body that is not
    an object is not a failure. *)
Theorem X9_upstream_declared_failure_is_only_logged
    (t : tool) (argument : string) (u : Upstream) (w : World)
    (r : Response) (v : json) :
  send u (request_of t argument) = inr r ->
  is_success r = true ->
  json_body r = JsonValue v ->
  result_of (call_tool t argument) u w = Return (json_dumps false (Some 2%nat) v)
  /\ exists records,
       logged_by (call_tool t argument) u w = (log w ++ records)%list
       /\ ((errors records = 1 /\ exists d, v = JDict d /\ success_is_falsy d)
           \/ (errors records = 0
               /\ forall d, v = JDict d -> ~ success_is_falsy d)).
Proof.
  intros Hsend Hok Hbody.
  split; [exact (run_success t argument u w r v Hsend Hok Hbody)|].
  destruct (declares_failure v) eqn:Hv.
  - revert Hsend. destruct t; intros Hsend;
      (eexists; split;
       [ revert Hsend; run; intros Hsend; rewrite Hsend; run;
         rewrite Hok; run; rewrite Hbody; run; rewrite Hv; run;
         rewrite <- !app_assoc; reflexivity
       | left; split; [reflexivity | now apply declares_failure_iff] ]).
  - eexists. split.
    + exact (run_success_log t argument u w r v Hsend Hok Hbody Hv).
    + right. split; [reflexivity|].
      intros d -> H.
      assert (Hyes : declares_failure (JDict d) = true)
        by (apply declares_failure_iff; exists d; split; [reflexivity | exact H]).
      congruence.
Qed.

Lemma X9_witness :
  (send (upstream_replying response_success_zero)
     (request_of tool_generate_story "Tell me a story")
   = inr response_success_zero
   /\ is_success response_success_zero = true
   /\ declares_failure
        (JDict [("success",
                 JFloat (PyFinite {| negative := false; int_part := 0;
                                     tail := Fraction (d0, []) None |}))])
      = true)
  /\ result_of (call_tool tool_generate_story "Tell me a story")
       (upstream_replying response_success_zero) world0
     = Return ("{" ++ nl ++ "  " ++ quoted "success" ++ ": 0.0" ++ nl ++ "}")
  /\ exists records,
       logged_by (call_tool tool_generate_story "Tell me a story")
         (upstream_replying response_success_zero) world0
       = (log world0 ++ records)%list
       /\ ((errors records = 1
            /\ exists d,
                 JDict [("success",
                         JFloat (PyFinite {| negative := false; int_part := 0;
                                             tail := Fraction (d0, []) None |}))]
                 = JDict d
                 /\ success_is_falsy d)
           \/ (errors records = 0
               /\ forall d,
                    JDict [("success",
                            JFloat (PyFinite {| negative := false; int_part := 0;
                                                tail := Fraction (d0, []) None |}))]
                    = JDict d
                    -> ~ success_is_falsy d)).
Proof.
  split; [repeat split|].
  exact (X9_upstream_declared_failure_is_only_logged tool_generate_story
           "Tell me a story" (upstream_replying response_success_zero)
           world0 response_success_zero
           (JDict [("success",
                    JFloat (PyFinite {| negative := false; int_part := 0;
                                        tail := Fraction (d0, []) None |}))])
           eq_refl eq_refl eq_refl).
Defined.

(** ** The request data in the log *)

Module Utf8.
Import Encoder Decoder.

(** Lets [lia] reason about division and remainder by constants. *)
#[local] Ltac Zify.zify_post_hook ::= Z.to_euclidean_division_equations.

Lemma lor_add (a b k : N) : (b < 2 ^ k)%N -> N.lor (a * 2 ^ k) b = (a * 2 ^ k + b)%N.
Proof.
  intros Hb.
  assert (H0 : N.land (a * 2 ^ k) b = 0%N).
  { rewrite <- (N.mod_small b (2 ^ k)) by assumption.
    rewrite <- N.land_ones, (N.land_comm b), N.land_assoc, N.land_ones.
    rewrite N.Div0.mod_mul. apply N.land_0_l. }
  now rewrite N.add_nocarry_lxor, N.lxor_lor.
Qed.

Lemma land_7 (a : N) : N.land a 7 = (a mod 8)%N.
Proof. exact (N.land_ones a 3). Qed.
Lemma land_15 (a : N) : N.land a 15 = (a mod 16)%N.
Proof. exact (N.land_ones a 4). Qed.
Lemma land_31 (a : N) : N.land a 31 = (a mod 32)%N.
Proof. exact (N.land_ones a 5). Qed.
Lemma land_63 (a : N) : N.land a 63 = (a mod 64)%N.
Proof. exact (N.land_ones a 6). Qed.
Lemma land_1023 (a : N) : N.land a 1023 = (a mod 1024)%N.
Proof. exact (N.land_ones a 10). Qed.

Lemma shiftr_4 (a : N) : N.shiftr a 4 = (a / 16)%N.
Proof. exact (N.shiftr_div_pow2 a 4). Qed.
Lemma shiftr_6 (a : N) : N.shiftr a 6 = (a / 64)%N.
Proof. exact (N.shiftr_div_pow2 a 6). Qed.
Lemma shiftr_8 (a : N) : N.shiftr a 8 = (a / 256)%N.
Proof. exact (N.shiftr_div_pow2 a 8). Qed.
Lemma shiftr_10 (a : N) : N.shiftr a 10 = (a / 1024)%N.
Proof. exact (N.shiftr_div_pow2 a 10). Qed.
Lemma shiftr_12 (a : N) : N.shiftr a 12 = (a / 4096)%N.
Proof. exact (N.shiftr_div_pow2 a 12). Qed.
Lemma shiftr_18 (a : N) : N.shiftr a 18 = (a / 262144)%N.
Proof. exact (N.shiftr_div_pow2 a 18). Qed.

Lemma shiftl_6 (a : N) : N.shiftl a 6 = (a * 64)%N.
Proof. exact (N.shiftl_mul_pow2 a 6). Qed.
Lemma shiftl_10 (a : N) : N.shiftl a 10 = (a * 1024)%N.
Proof. exact (N.shiftl_mul_pow2 a 10). Qed.
Lemma shiftl_12 (a : N) : N.shiftl a 12 = (a * 4096)%N.
Proof. exact (N.shiftl_mul_pow2 a 12). Qed.
Lemma shiftl_18 (a : N) : N.shiftl a 18 = (a * 262144)%N.
Proof. exact (N.shiftl_mul_pow2 a 18). Qed.

(** [lor] of a multiple of [2^k] and a number below [2^k] is their sum. *)
Lemma lor_sum (k a b hi : N) :
  a = (hi * 2 ^ k)%N -> (b < 2 ^ k)%N -> N.lor a b = (a + b)%N.
Proof. intros -> Hb. now apply lor_add. Qed.

Ltac to_arith :=
  rewrite ?land_7, ?land_15, ?land_31, ?land_63, ?land_1023,
    ?shiftr_4, ?shiftr_6, ?shiftr_8, ?shiftr_10, ?shiftr_12, ?shiftr_18,
    ?shiftl_6, ?shiftl_10, ?shiftl_12, ?shiftl_18 in *.

Lemma decode2 (n n1 : N) :
  N.lor (N.shiftl (N.land n 31) 6) (N.land n1 63) = ((n mod 32) * 64 + n1 mod 64)%N.
Proof.
  to_arith. apply (lor_sum 6 _ _ (n mod 32)); [reflexivity|]. change (2^6)%N with 64%N. lia.
Qed.

Lemma encode2 (n n1 : N) :
  (194 <= n < 224)%N -> (128 <= n1 < 192)%N ->
  utf8_encode ((n mod 32) * 64 + n1 mod 64)
  = Some (String (byte n) (String (byte n1) "")).
Proof.
  intros Hn Hn1. unfold utf8_encode. set (cp := ((n mod 32) * 64 + n1 mod 64)%N).
  assert (Hcp : (128 <= cp < 2048)%N) by (subst cp; lia).
  destruct (N.ltb_spec cp 128); [lia|].
  destruct (N.ltb_spec cp 2048); [|lia].
  to_arith.
  rewrite (lor_sum 6 192 (cp / 64) 3); [| reflexivity | change (2^6)%N with 64%N; lia].
  rewrite (lor_sum 6 128 (cp mod 64) 2); [| reflexivity | change (2^6)%N with 64%N; lia].
  replace (192 + cp / 64)%N with n by (subst cp; lia).
  replace (128 + cp mod 64)%N with n1 by (subst cp; lia).
  reflexivity.
Qed.

Lemma decode3 (n n1 n2 : N) :
  N.lor (N.shiftl (N.land n 15) 12)
    (N.lor (N.shiftl (N.land n1 63) 6) (N.land n2 63))
  = ((n mod 16) * 4096 + (n1 mod 64) * 64 + n2 mod 64)%N.
Proof.
  to_arith.
  rewrite (lor_sum 6 (n1 mod 64 * 64) (n2 mod 64) (n1 mod 64));
    [| reflexivity | change (2^6)%N with 64%N; lia].
  rewrite (lor_sum 12 (n mod 16 * 4096) _ (n mod 16));
    [| reflexivity | change (2^12)%N with 4096%N; lia].
  lia.
Qed.

Lemma decode4 (n n1 n2 n3 : N) :
  N.lor (N.shiftl (N.land n 7) 18)
    (N.lor (N.shiftl (N.land n1 63) 12)
       (N.lor (N.shiftl (N.land n2 63) 6) (N.land n3 63)))
  = ((n mod 8) * 262144 + (n1 mod 64) * 4096 + (n2 mod 64) * 64 + n3 mod 64)%N.
Proof.
  to_arith.
  rewrite (lor_sum 6 (n2 mod 64 * 64) (n3 mod 64) (n2 mod 64));
    [| reflexivity | change (2^6)%N with 64%N; lia].
  rewrite (lor_sum 12 (n1 mod 64 * 4096) _ (n1 mod 64));
    [| reflexivity | change (2^12)%N with 4096%N; lia].
  rewrite (lor_sum 18 (n mod 8 * 262144) _ (n mod 8));
    [| reflexivity | change (2^18)%N with 262144%N; lia].
  lia.
Qed.

Lemma encode3 (n n1 n2 : N) :
  (224 <= n < 240)%N -> (128 <= n1 < 192)%N -> (128 <= n2 < 192)%N ->
  (n = 224 -> 160 <= n1)%N -> (n = 237 -> n1 < 160)%N ->
  let cp := ((n mod 16) * 4096 + (n1 mod 64) * 64 + n2 mod 64)%N in
  (cp < 65536)%N
  /\ ((55296 <=? cp) && (cp <=? 56319))%N = false
  /\ utf8_encode cp
     = Some (String (byte n) (String (byte n1) (String (byte n2) ""))).
Proof.
  intros Hn Hn1 Hn2 H224 H237 cp.
  assert (Hcp : (2048 <= cp < 65536)%N) by (subst cp; lia).
  assert (Hsur : (cp < 55296 \/ 57343 < cp)%N) by (subst cp; lia).
  split; [lia|]. split.
  - destruct (N.leb_spec 55296 cp); [|reflexivity].
    destruct (N.leb_spec cp 56319); [lia | reflexivity].
  - unfold utf8_encode.
    destruct (N.ltb_spec cp 128); [lia|].
    destruct (N.ltb_spec cp 2048); [lia|].
    destruct (N.ltb_spec cp 65536); [|lia].
    replace ((55296 <=? cp) && (cp <=? 57343))%N with false
      by (destruct (N.leb_spec 55296 cp); [|reflexivity];
          destruct (N.leb_spec cp 57343); [lia | reflexivity]).
    to_arith.
    rewrite (lor_sum 4 224 (cp / 4096) 14);
      [| reflexivity | change (2^4)%N with 16%N; lia].
    rewrite (lor_sum 6 128 ((cp / 64) mod 64) 2);
      [| reflexivity | change (2^6)%N with 64%N; lia].
    rewrite (lor_sum 6 128 (cp mod 64) 2);
      [| reflexivity | change (2^6)%N with 64%N; lia].
    replace (224 + cp / 4096)%N with n by (subst cp; lia).
    replace (128 + (cp / 64) mod 64)%N with n1 by (subst cp; lia).
    replace (128 + cp mod 64)%N with n2 by (subst cp; lia).
    reflexivity.
Qed.

Lemma encode4 (n n1 n2 n3 : N) :
  (240 <= n < 245)%N -> (128 <= n1 < 192)%N -> (128 <= n2 < 192)%N ->
  (128 <= n3 < 192)%N ->
  (n = 240 -> 144 <= n1)%N -> (n = 244 -> n1 < 144)%N ->
  let cp := ((n mod 8) * 262144 + (n1 mod 64) * 4096 + (n2 mod 64) * 64
             + n3 mod 64)%N in
  (65536 <= cp < 1114112)%N
  /\ utf8_encode cp
     = Some (String (byte n)
               (String (byte n1) (String (byte n2) (String (byte n3) "")))).
Proof.
  intros Hn Hn1 Hn2 Hn3 H240 H244 cp.
  assert (Hcp : (65536 <= cp < 1114112)%N) by (subst cp; lia).
  split; [assumption|]. unfold utf8_encode.
  destruct (N.ltb_spec cp 128); [lia|].
  destruct (N.ltb_spec cp 2048); [lia|].
  destruct (N.ltb_spec cp 65536); [lia|].
  destruct (N.ltb_spec cp 1114112); [|lia].
  to_arith.
  rewrite (lor_sum 3 240 (cp / 262144) 30);
    [| reflexivity | change (2^3)%N with 8%N; lia].
  rewrite (lor_sum 6 128 ((cp / 4096) mod 64) 2);
    [| reflexivity | change (2^6)%N with 64%N; lia].
  rewrite (lor_sum 6 128 ((cp / 64) mod 64) 2);
    [| reflexivity | change (2^6)%N with 64%N; lia].
  rewrite (lor_sum 6 128 (cp mod 64) 2);
    [| reflexivity | change (2^6)%N with 64%N; lia].
  replace (240 + cp / 262144)%N with n by (subst cp; lia).
  replace (128 + (cp / 4096) mod 64)%N with n1 by (subst cp; lia).
  replace (128 + (cp / 64) mod 64)%N with n2 by (subst cp; lia).
  replace (128 + cp mod 64)%N with n3 by (subst cp; lia).
  reflexivity.
Qed.

(** The surrogate pair the encoder writes for a code point above the basic
    plane, and the code point the reader makes of it. *)
Lemma surrogates (cp : N) :
  (65536 <= cp < 1114112)%N ->
  let m := (cp - 65536)%N in
  let s1 := N.lor 55296 (N.land (N.shiftr m 10) 1023) in
  let s2 := N.lor 56320 (N.land m 1023) in
  (55296 <= s1 <= 56319)%N /\ (56320 <= s2 <= 57343)%N
  /\ (65536 + N.shiftl (s1 - 55296) 10 + (s2 - 56320) = cp)%N.
Proof.
  intros Hcp m s1 s2. subst s1 s2. to_arith.
  rewrite (lor_sum 10 55296 _ 54);
    [| reflexivity | change (2^10)%N with 1024%N; lia].
  rewrite (lor_sum 10 56320 _ 55);
    [| reflexivity | change (2^10)%N with 1024%N; lia].
  subst m. lia.
Qed.

Lemma hex_value_digit (m : N) : (m < 16)%N -> hex_value (hex_digit m) = Some m.
Proof.
  intros Hm. destruct m as [|p]; [reflexivity|].
  do 4 (try destruct p as [p|p|]); try reflexivity; lia.
Qed.

(** Four hexadecimal digits written by the encoder are read back. *)
Lemma hex4_value_hex4 (n : N) (T : string) :
  (n < 65536)%N ->
  exists h1 h2 h3 h4,
    hex4 n ++ T = String h1 (String h2 (String h3 (String h4 T)))
    /\ hex4_value h1 h2 h3 h4 = Some n.
Proof.
  intros Hn. eexists _, _, _, _. split; [reflexivity|].
  unfold hex4_value. to_arith.
  rewrite !hex_value_digit by lia. f_equal. lia.
Qed.

(** A [\uXXXX] escape of a code point that is no high surrogate. *)
Lemma scan_u_escape (n : N) (T : string) :
  (n < 65536)%N ->
  ((55296 <=? n) && (n <=? 56319))%N = false ->
  scan_string (String backslash (String "u" (hex4 n ++ T)))
  = match utf8_encode n with
    | Some p => prepend p (scan_string T)
    | None => None
    end.
Proof.
  intros Hn Hhigh.
  destruct (hex4_value_hex4 n T Hn) as (h1 & h2 & h3 & h4 & E & Hv).
  rewrite E. cbn [scan_string].
  change ((code backslash =? 34)%N) with false.
  change ((code backslash =? 92)%N) with true.
  change ((code "u"%char =? 117)%N) with true. cbv iota.
  rewrite Hv, Hhigh. reflexivity.
Qed.

(** A surrogate pair of escapes. *)
Lemma scan_surrogate_pair (s1 s2 : N) (T : string) :
  (55296 <= s1 <= 56319)%N -> (56320 <= s2 <= 57343)%N ->
  scan_string
    (String backslash (String "u" (hex4 s1))
       ++ String backslash (String "u" (hex4 s2)) ++ T)
  = match utf8_encode (65536 + N.shiftl (s1 - 55296) 10 + (s2 - 56320)) with
    | Some p => prepend p (scan_string T)
    | None => None
    end.
Proof.
  intros H1 H2.
  destruct (hex4_value_hex4 s2 T) as (l1 & l2 & l3 & l4 & E2 & Hv2); [lia|].
  destruct (hex4_value_hex4 s1
              (String backslash (String "u" (hex4 s2 ++ T))))
    as (h1 & h2 & h3 & h4 & E1 & Hv1); [lia|].
  cbn [append]. rewrite E1, E2. cbn [scan_string].
  change ((code backslash =? 34)%N) with false.
  change ((code backslash =? 92)%N) with true.
  change ((code "u"%char =? 117)%N) with true. cbv iota.
  rewrite Hv1.
  replace ((55296 <=? s1) && (s1 <=? 56319))%N with true
    by (symmetry; apply andb_true_iff; split; apply N.leb_le; lia).
  cbn [andb]. rewrite Hv2.
  replace ((56320 <=? s2) && (s2 <=? 57343))%N with true
    by (symmetry; apply andb_true_iff; split; apply N.leb_le; lia).
  reflexivity.
Qed.

(** Turns the boolean tests among the hypotheses into inequalities. *)
Ltac bounds :=
  repeat match goal with
         | H : (_ && _)%bool = true |- _ =>
             apply andb_true_iff in H; destruct H
         | H : is_cont _ = true |- _ => unfold is_cont in H
         | H : (_ <=? _)%N = true |- _ => apply N.leb_le in H
         | H : (_ <? _)%N = true |- _ => apply N.ltb_lt in H
         | H : (_ <? _)%N = false |- _ => apply N.ltb_ge in H
         | H : (if (?a =? ?b)%N then _ else true) = true |- _ =>
             destruct (N.eqb_spec a b)
         end.

(** An ASCII character written by the encoder is read back. *)
Lemma scan_ascii_char (c : ascii) (E rest r : string) :
  (code c <? 128)%N = true ->
  scan_string (E ++ String dquote rest) = Some (r, rest) ->
  scan_string
    (match escape_dct c with
     | Some e => e ++ E
     | None =>
         if (code c =? 127)%N then escape_code_point (code c) ++ E
         else String c E
     end ++ String dquote rest)
  = Some (String c r, rest).
Proof.
  intros H128 IH.
  destruct c as [[|] [|] [|] [|] [|] [|] [|] [|]]; try discriminate H128;
    cbn; rewrite ?Roundtrip.append_assoc; cbn; rewrite IH; reflexivity.
Qed.

(** A string the encoder wrote with [ensure_ascii] is read back, when it is
    well-formed UTF-8. *)
Lemma scan_escape_ascii (k : nat) :
  forall s rest,
    String.length s <= k -> valid_utf8 s = true ->
    scan_string (escape_ascii s ++ String dquote rest) = Some (s, rest).
Proof.
  induction k as [|k IH]; intros s rest Hlen Hvalid.
  - destruct s; [reflexivity | simpl in Hlen; lia].
  - destruct s as [|c r]; [reflexivity|]. simpl in Hlen.
    cbn [valid_utf8] in Hvalid. cbn [escape_ascii].
    destruct (code c <? 128)%N eqn:H128.
    + apply scan_ascii_char; [assumption|]. apply IH; [lia | assumption].
    + destruct ((194 <=? code c) && (code c <? 224))%N eqn:H2.
      * destruct r as [|c1 r1]; [discriminate|]. simpl in Hlen. bounds.
        replace (code c <? 224)%N with true by (symmetry; apply N.ltb_lt; lia).
        unfold cont_bits. rewrite decode2, Roundtrip.append_assoc.
        unfold escape_code_point.
        replace (((code c mod 32) * 64 + code c1 mod 64) <? 65536)%N with true
          by (symmetry; apply N.ltb_lt; lia).
        cbn [append]. rewrite scan_u_escape; [| lia |].
        -- rewrite encode2 by lia. rewrite IH by (assumption || lia).
           unfold byte, code. now rewrite !ascii_N_embedding.
        -- destruct (N.leb_spec 55296 ((code c mod 32) * 64 + code c1 mod 64));
             [lia | reflexivity].
      * destruct ((224 <=? code c) && (code c <? 240))%N eqn:H3.
        -- destruct r as [|c1 [|c2 r2]]; try discriminate. simpl in Hlen.
           bounds;
             replace (code c <? 224)%N with false
               by (symmetry; apply N.ltb_ge; lia);
             replace (code c <? 240)%N with true
               by (symmetry; apply N.ltb_lt; lia);
             unfold cont_bits; rewrite decode3, Roundtrip.append_assoc;
             (destruct (encode3 (code c) (code c1) (code c2))
               as (Hcp & Hhigh & Henc); [lia ..|]);
             unfold escape_code_point;
             replace (_ <? 65536)%N with true by (symmetry; apply N.ltb_lt; lia);
             cbn [append]; rewrite scan_u_escape by assumption;
             rewrite Henc, IH by (assumption || lia);
             unfold byte, code; now rewrite !ascii_N_embedding.
        -- destruct ((240 <=? code c) && (code c <? 245))%N eqn:H4;
             [|discriminate].
           destruct r as [|c1 [|c2 [|c3 r3]]]; try discriminate. simpl in Hlen.
           bounds;
             replace (code c <? 224)%N with false
               by (symmetry; apply N.ltb_ge; lia);
             replace (code c <? 240)%N with false
               by (symmetry; apply N.ltb_ge; lia);
             unfold cont_bits; rewrite decode4, Roundtrip.append_assoc;
             (destruct (encode4 (code c) (code c1) (code c2) (code c3))
               as (Hcp & Henc); [lia ..|]);
             (destruct (surrogates _ Hcp) as (Hs1 & Hs2 & Hsum));
             unfold escape_code_point;
             replace (_ <? 65536)%N with false by (symmetry; apply N.ltb_ge; lia);
             rewrite Roundtrip.append_assoc;
             rewrite scan_surrogate_pair by assumption;
             rewrite Hsum, Henc, IH by (assumption || lia);
             unfold byte, code; now rewrite !ascii_N_embedding.
Qed.

(** The text of a one-field object of strings, as [json.dumps(data,
    indent=2)] writes it. *)
Lemma one_field_text (k s : string) :
  json_dumps true (Some 2%nat) (JDict [(k, JStr s)])
  = String "{"
      (String LF
         (String space
            (String space
               (String dquote
                  (escape_ascii k ++
                   String dquote
                     (String ":"
                        (String space
                           (String dquote
                              (escape_ascii s ++
                               String dquote (String LF "}")))))))))).
Proof.
  unfold json_dumps.
  cbn [_iterencode newline_indent _encoder py_encode_basestring_ascii
       _key_separator Nat.mul Nat.add spaces append].
  rewrite !Roundtrip.append_assoc. reflexivity.
Qed.

(** The one-field object a tool passes to the gateway, as the gateway logs
    it, is read back. *)
Lemma parse_one_field (k s : string) :
  valid_utf8 k = true -> valid_utf8 s = true ->
  parse_json (json_dumps true (Some 2%nat) (JDict [(k, JStr s)]))
  = Some (JDict [(k, JStr s)]).
Proof.
  intros Hk Hs. rewrite one_field_text. unfold parse_json, parse_document.
  set (after_key :=
         String ":" (String space
           (String dquote (escape_ascii s ++ String dquote (String LF "}"))))).
  assert (Hvalue : forall fuel,
             parse_value false (S fuel)
               (String dquote (escape_ascii s ++ String dquote (String LF "}")))
             = Some (JStr s, String LF "}")).
  { intros fuel.
    change (parse_value false (S fuel)
              (String dquote (escape_ascii s ++ String dquote (String LF "}"))))
      with (match scan_string (escape_ascii s ++ String dquote (String LF "}")) with
            | Some (x, rest) => Some (JStr x, rest)
            | None => None
            end).
    now rewrite (scan_escape_ascii (String.length s) s _ (le_n _) Hs). }
  assert (Hmembers : forall fuel,
             parse_members false (S (S fuel))
               (String dquote (escape_ascii k ++ String dquote after_key))
             = Some ([(k, JStr s)], "")).
  { intros fuel.
    change (parse_members false (S (S fuel))
              (String dquote (escape_ascii k ++ String dquote after_key)))
      with (match scan_string (escape_ascii k ++ String dquote after_key) with
            | None => None
            | Some (k0, r1) =>
                match skip_ws r1 with
                | "" => None
                | String c r2 =>
                    if (code c =? 58)%N then
                      match parse_value false (S fuel) (skip_ws r2) with
                      | None => None
                      | Some (v, r3) =>
                          match skip_ws r3 with
                          | "" => None
                          | String c' r4 =>
                              if (code c' =? 125)%N then Some ([(k0, v)], r4)
                              else if (code c' =? 44)%N then
                                match parse_members false (S fuel) (skip_ws r4) with
                                | Some (kvs, rest) => Some ((k0, v) :: kvs, rest)
                                | None => None
                                end
                              else None
                          end
                      end
                    else None
                end
            end).
    rewrite (scan_escape_ascii (String.length k) k _ (le_n _) Hk).
    subst after_key.
    change (skip_ws (String ":" ?x)) with (String ":" x).
    cbv iota. change ((code ":"%char =? 58)%N) with true. cbv iota.
    change (skip_ws (String space ?x)) with (skip_ws x).
    change (skip_ws (String dquote ?x)) with (String dquote x).
    rewrite Hvalue. reflexivity. }
  cbn [String.length].
  change (skip_ws (String "{" ?x)) with (String "{" x).
  match goal with
  | |- context [parse_value false (S (S (S ?f))) (String "{" ?x)] =>
      change (parse_value false (S (S (S f))) (String "{" x))
        with (match skip_ws x with
              | "" => None
              | String c1 r1 =>
                  if (code c1 =? 125)%N then Some (JDict [], r1)
                  else
                    match parse_members false (S (S f)) (String c1 r1) with
                    | Some (d, rest) => Some (JDict d, rest)
                    | None => None
                    end
              end)
  end.
  change (skip_ws (String LF (String space (String space (String dquote ?x)))))
    with (String dquote x).
  cbv iota. change ((code dquote =? 125)%N) with false. cbv iota.
  rewrite Hmembers. reflexivity.
Qed.
End Utf8.

(** X10. The request data the gateway logs is the body it sends: for a
    well-formed argument the record [Request data: ...] of a call holds a
    JSON document that parses to exactly the body of the request, with every
    non-ASCII character written as [\uXXXX] escapes, a surrogate pair above
    the basic plane. *)
Theorem X10_logged_request_data_parses_back
    (t : tool) (argument : string) (u : Upstream) (w : World) :
  valid_utf8 argument = true ->
  exists data,
    In {| levelname := INFO; msg := [Text "Request data: "; Text data];
          exc_info := false |}
       (logged_by (call_tool t argument) u w)
    /\ parse_json data = Some (body (request_of t argument)).
Proof.
  intros Hvalid.
  exists (json_dumps true (Some 2%nat) (JDict [(field_of t, JStr argument)])).
  split.
  - unfold logged_by. rewrite call_tool_frame. cbn [snd log].
    apply in_or_app. right. unfold world0.
    destruct t; run; upstream_cases u; cbn [Datatypes.app In];
      do 3 right; left; reflexivity.
  - apply Utf8.parse_one_field; [destruct t; reflexivity | assumption].
Qed.

Lemma X10_witness :
  valid_utf8 "naïve 𝄞 café" = true
  /\ exists data,
       In {| levelname := INFO; msg := [Text "Request data: "; Text data];
             exc_info := false |}
          (logged_by (call_tool tool_generate_story "naïve 𝄞 café")
             (upstream_replying response_array) world0)
       /\ parse_json data
          = Some (body (request_of tool_generate_story "naïve 𝄞 café")).
Proof.
  split; [reflexivity|].
  apply (X10_logged_request_data_parses_back tool_generate_story
           "naïve 𝄞 café" (upstream_replying response_array) world0).
  reflexivity.
Defined.
